(** * Label algebra of the transit-routing engine

    A shallow embedding of [app/algorithms/label.py] (the current [Label]
    class and [_get_intermediate_stations]) and of the older [label.py]
    (the legacy [Label] class), followed by the properties of the label
    algebra: dominance, normalised cost vector, weighted score,
    epsilon-similarity, equality and hash, and route reconstruction.

    Numbers are modelled as Python has them: [float] is IEEE 754 binary64
    (Rocq's primitive floats), [int] is an unbounded integer ([Z]).
    Exceptions are modelled by the [result] type. *)

From Stdlib Require Import ZArith Floats FloatLemmas String List Bool Lia.
From Stdlib Require Import Sorting.Sorted Sorting.Permutation.
From stdpp Require Import base option list gmap strings.
Import ListNotations.

Set Warnings "-inexact-float,-register-all".
Local Open Scope Z_scope.

(** ** Python exceptions and results *)

Inductive PyError : Type :=
  | ZeroDivisionError
  | OverflowError
  | ValueError
  | IndexError
  | TypeError
  | AttributeError (attr : string).

Inductive result (A : Type) : Type :=
  | Ok (a : A)
  | Raise (e : PyError).
Arguments Ok {A} a.
Arguments Raise {A} e.

#[global] Instance result_ret : MRet result := fun A a => Ok a.
#[global] Instance result_bind : MBind result := fun A B f m =>
  match m with
  | Ok a => f a
  | Raise e => Raise e
  end.

(** ** Python numbers *)

Module Py.

(** [float(n)] for an [int]: the nearest binary64, ties to even;
    [OverflowError] when the rounded value does not fit. *)
Definition int_to_float (n : Z) : result float :=
  let f := SF2Prim (binary_normalize prec emax n 0 false) in
  if is_infinity f then Raise OverflowError else Ok f.

(** The comparison operators of [float]: [a > b] is the IEEE comparison,
    which holds exactly when [b < a]. *)
Definition lt (a b : float) : bool := PrimFloat.ltb a b.
Definition gt (a b : float) : bool := PrimFloat.ltb b a.
Definition le (a b : float) : bool := PrimFloat.leb a b.
Definition ge (a b : float) : bool := PrimFloat.leb b a.

(** [a / b] on floats: [ZeroDivisionError] when the divisor is zero. *)
Definition truediv (a b : float) : result float :=
  if PrimFloat.eqb b 0%float then Raise ZeroDivisionError
  else Ok (a / b)%float.

(** [a / n] for a float [a] and an int [n]: [n] is converted first. *)
Definition truediv_float_int (a : float) (n : Z) : result float :=
  b ← int_to_float n; truediv a b.

(** [n / b] for an int [n] and a float [b]. *)
Definition truediv_int_float (n : Z) (b : float) : result float :=
  a ← int_to_float n; truediv a b.

(** [min(a, b)] with two arguments: the first one unless the second is
    strictly smaller. *)
Definition min (a b : float) : float := if lt b a then b else a.

(** [max(xs, default=d)]: a later item replaces the running maximum only
    when strictly greater. *)
Definition max_default (xs : list float) (d : float) : float :=
  match xs with
  | [] => d
  | x :: xs' => fold_left (fun m item => if gt item m then item else m) xs' x
  end.

(** [math.sqrt]: [ValueError] when the result is NaN and the argument is
    not. *)
Definition sqrt (x : float) : result float :=
  let r := PrimFloat.sqrt x in
  if is_nan r && negb (is_nan x) then Raise ValueError else Ok r.

(** [xs[i]] for a list and a non-negative index. *)
Definition index {A} (xs : list A) (i : nat) : result A :=
  match nth_error xs i with
  | Some x => Ok x
  | None => Raise IndexError
  end.

(** [d.get(key, default)] on a dict used as a map. *)
Definition get_default (d : gmap string float) (key : string) (default : float) : float :=
  match d !! key with
  | Some v => v
  | None => default
  end.

(** [b < n] for a float [b] and an int [n]; Python compares the two
    exactly, without converting [n]. *)
Definition float_lt_int (b : float) (n : Z) : bool :=
  match Prim2SF b with
  | S754_nan => false
  | S754_infinity s => s
  | S754_zero _ => 0 <? n
  | S754_finite s m e =>
      if 0 <=? e then cond_Zopp s (Zpos m * 2 ^ e) <? n
      else cond_Zopp s (Zpos m) <? n * 2 ^ (- e)
  end.

(** [enumerate(xs)]. *)
Definition enumerate {A} (xs : list A) : list (nat * A) :=
  combine (seq 0 (length xs)) xs.

End Py.

(** ** Intermediate stations between two stops of one line *)

(** [station_order_map] is a dict [(station_cd, line) -> order].  It is kept
    as the list of its items in insertion order, the order in which
    [items()] yields them; the keys of a dict are pairwise distinct. *)
Definition OrderMap : Type := list ((string * string) * Z).

(** [line_stations] is a dict
    [(station_cd, line) -> {"up": [...], "down": [...]}]. *)
Definition LineStations : Type := gmap (string * string) (gmap string (list string)).

(** The two warnings printed on standard output. *)
Inductive Warning : Type :=
  | MissingOrder (from_station_cd : string) (from_order : option Z)
                 (to_station_cd : string) (to_order : option Z)
  | EmptyRange (from_station_cd to_station_cd : string).

Definition key_eqb (k1 k2 : string * string) : bool :=
  (fst k1 =? fst k2)%string && (snd k1 =? snd k2)%string.

(** [station_order_map.get(key)]. *)
Fixpoint dict_get (m : OrderMap) (key : string * string) : option Z :=
  match m with
  | [] => None
  | (k, v) :: m' => if key_eqb k key then Some v else dict_get m' key
  end.

(** [list.sort(key=lambda x: x[0], reverse=...)].  Python's sort is stable,
    also with [reverse=True], where the list is reversed before and after a
    stable ascending sort; a stable sort is determined by these two facts,
    so insertion sort stands for it. *)
Fixpoint insert_by_order (x : Z * string) (l : list (Z * string)) : list (Z * string) :=
  match l with
  | [] => [x]
  | y :: l' => if fst x <=? fst y then x :: l else y :: insert_by_order x l'
  end.

Definition stable_sort (l : list (Z * string)) : list (Z * string) :=
  foldr insert_by_order [] l.

Definition sort_by_order (reverse : bool) (l : list (Z * string)) : list (Z * string) :=
  if reverse then rev (stable_sort (rev l)) else stable_sort l.

(** The value together with what was printed. *)
Definition _get_intermediate_stations
    (from_station_cd to_station_cd line direction : string)
    (line_stations : LineStations) (station_order_map : OrderMap)
    : list string * list Warning :=
  let from_order := dict_get station_order_map (from_station_cd, line) in
  let to_order := dict_get station_order_map (to_station_cd, line) in
  match from_order, to_order with
  | Some from_order, Some to_order =>
      let start_idx := Z.min from_order to_order in
      let end_idx := Z.max from_order to_order in
      let intermediate_candidates :=
        foldl (fun acc '((s_cd, s_line), s_order) =>
                 if (s_line =? line)%string
                    && (start_idx <? s_order) && (s_order <=? end_idx)
                 then acc ++ [(s_order, s_cd)]
                 else acc)
              [] station_order_map in
      let is_ascending := from_order <? to_order in
      let intermediate_candidates :=
        sort_by_order (negb is_ascending) intermediate_candidates in
      let result_stations := map snd intermediate_candidates in
      match result_stations with
      | [] => ([to_station_cd], [EmptyRange from_station_cd to_station_cd])
      | _ :: _ => (result_stations, [])
      end
  | _, _ =>
      ([to_station_cd],
       [MissingOrder from_station_cd from_order to_station_cd to_order])
  end.

(** ** The current [Label] class ([app/algorithms/label.py]) *)

Module Label.

Inductive t : Type := mk {
  arrival_time : float;
  transfers : Z;
  convenience_sum : float;
  congestion_sum : float;
  max_transfer_difficulty : float;
  parent_label : option t;
  current_station_cd : string;
  current_line : string;
  current_direction : string;
  visited_stations : gset string;
  depth : Z;
  transfer_info : option (string * string * string);
  is_first_move : bool;
  created_round : Z
}.

(** Any Python object that may be passed where a label is expected. *)
Inductive PyObject : Type :=
  | OfLabel (l : t)
  | Other.

Definition route_length (self : t) : Z := depth self.

Definition avg_convenience (self : t) : result float :=
  Py.truediv_float_int (convenience_sum self) (depth self).

Definition avg_congestion (self : t) : result float :=
  Py.truediv_float_int (congestion_sum self) (depth self).

(** *** Equality and hash *)

Definition bucket_key (self : t) : string * string * Z :=
  (current_station_cd self, current_line self, transfers self).

Definition __eq__ (self : t) (other : PyObject) : bool :=
  match other with
  | Other => false
  | OfLabel other =>
      (current_station_cd self =? current_station_cd other)%string
      && (current_line self =? current_line other)%string
      && (transfers self =? transfers other)
  end.

Section Hash.
(** Python's [hash] on a [(str, str, int)] tuple; its values depend on the
    interpreter's hash seed, so it is kept abstract. *)
Variable tuple_hash : string * string * Z -> Z.

Definition __hash__ (self : t) : Z :=
  tuple_hash (current_station_cd self, current_line self, transfers self).
End Hash.

(** *** Dominance *)

(** One criterion of [dominates]:
    [if a < b: better_in_any = True / elif a > b: return False].
    [None] is the early [return False]. *)
Definition criterion {A} (lt gt : A -> A -> bool) (a b : A)
    (better_in_any : bool) : option bool :=
  if lt a b then Some true
  else if gt a b then None
  else Some better_in_any.

Definition dominates (self other : t) : result bool :=
  if negb (current_station_cd self =? current_station_cd other)%string then Ok false
  else if negb (current_line self =? current_line other)%string then Ok false
  else if negb (transfers self =? transfers other) then Ok false
  else
    let better_in_any := false in
    match criterion Z.ltb Z.gtb (transfers self) (transfers other) better_in_any with
    | None => Ok false
    | Some better_in_any =>
    match criterion Py.lt Py.gt (max_transfer_difficulty self)
            (max_transfer_difficulty other) better_in_any with
    | None => Ok false
    | Some better_in_any =>
    match criterion Py.lt Py.gt (arrival_time self) (arrival_time other)
            better_in_any with
    | None => Ok false
    | Some better_in_any =>
    g1 ← avg_congestion self;
    g2 ← avg_congestion other;
    match criterion Py.lt Py.gt g1 g2 better_in_any with
    | None => Ok false
    | Some better_in_any =>
    c1 ← avg_convenience self;
    c2 ← avg_convenience other;
    match criterion Py.gt Py.lt c1 c2 better_in_any with
    | None => Ok false
    | Some better_in_any => Ok better_in_any
    end end end end end.

(** *** Weighted score *)

Definition calculate_weighted_score (self : t) (weights : gmap string float)
    : result float :=
  norm_time ← (x ← Py.truediv (arrival_time self) 120%float; mret (Py.min x 1%float));
  norm_transfers ← (x ← Py.truediv_int_float (transfers self) 4%float;
                    mret (Py.min x 1%float));
  let norm_difficulty := max_transfer_difficulty self in
  norm_convenience ← (c ← avg_convenience self;
                      x ← Py.truediv c 5%float; mret (1 - x)%float);
  norm_congestion ← (g ← avg_congestion self; mret (Py.min g 1%float));
  let score :=
    (Py.get_default weights "travel_time" 0.2 * norm_time
     + Py.get_default weights "transfers" 0.2 * norm_transfers
     + Py.get_default weights "transfer_difficulty" 0.2 * norm_difficulty
     + Py.get_default weights "convenience" 0.2 * norm_convenience
     + Py.get_default weights "congestion" 0.2 * norm_congestion)%float in
  mret score.

(** *** Normalised cost vector and epsilon-similarity *)

Definition get_normalized_vector (self : t) : result (list float) :=
  norm_time ← Py.truediv (arrival_time self) 90%float;
  norm_transfers ← Py.truediv_int_float (transfers self) 3%float;
  let norm_difficulty := max_transfer_difficulty self in
  norm_convenience ← (c ← avg_convenience self; Py.truediv c 5%float);
  norm_congestion ← (g ← avg_congestion self; Py.truediv g 1.3%float);
  mret [norm_time; norm_transfers; norm_difficulty; norm_convenience;
        norm_congestion].

Definition criteria : list string :=
  ["travel_time"; "transfers"; "transfer_difficulty"; "convenience";
   "congestion"]%string.

Definition weighted_distance (self other : t) (anp_weights : gmap string float)
    : result float :=
  v1 ← get_normalized_vector self;
  v2 ← get_normalized_vector other;
  diff_sq ← foldl (fun acc '(i, criterion) =>
               diff_sq ← acc;
               let weight := Py.get_default anp_weights criterion 0.2 in
               x1 ← Py.index v1 i;
               x2 ← Py.index v2 i;
               let diff := (x1 - x2)%float in
               mret (diff_sq + weight * diff * diff)%float)
             (Ok 0%float) (Py.enumerate criteria);
  Py.sqrt diff_sq.

Definition epsilon_similar (self other : t) (epsilon : float)
    (anp_weights : gmap string float) : result bool :=
  distance ← weighted_distance self other anp_weights;
  mret (Py.le distance epsilon).

(** *** Reconstruction along the parent pointers *)

(** The [while cur is not None] loop: the labels from [self] up to the
    root. *)
Fixpoint ancestors (self : t) : list t :=
  self :: match parent_label self with
          | Some parent => ancestors parent
          | None => []
          end.

(** [labels_path[i - 1]] is only read for [i >= 1], where it is in range;
    the default of [nth] is never used. *)
Definition reconstruct_route (self : t) (line_stations : option LineStations)
    (station_order_map : option OrderMap) : list string * list Warning :=
  let labels_path := rev (ancestors self) in
  match line_stations, station_order_map with
  | Some line_stations, Some station_order_map =>
      foldl (fun '(complete_route, out) '(i, label) =>
               if (i =? 0)%nat then
                 (complete_route ++ [current_station_cd label], out)
               else
                 let prev_label := nth (i - 1) labels_path label in
                 let curr_label := label in
                 let is_transfer :=
                   negb (current_line prev_label =? current_line curr_label)%string in
                 if is_transfer then
                   if negb (current_station_cd curr_label
                            =? current_station_cd prev_label)%string
                   then (complete_route ++ [current_station_cd curr_label], out)
                   else (complete_route, out)
                 else
                   let '(intermediates, printed) :=
                     _get_intermediate_stations
                       (current_station_cd prev_label)
                       (current_station_cd curr_label)
                       (current_line curr_label)
                       (current_direction curr_label)
                       line_stations station_order_map in
                   (complete_route ++ intermediates, out ++ printed))
            ([], []) (Py.enumerate labels_path)
  | _, _ => (map current_station_cd labels_path, [])
  end.

Definition reconstruct_lines (self : t) (line_stations : option LineStations)
    (station_order_map : option OrderMap) : list string * list Warning :=
  match line_stations, station_order_map with
  | Some line_stations, Some station_order_map =>
      let labels_path := rev (ancestors self) in
      foldl (fun '(complete_lines, out) '(i, label) =>
               if (i =? 0)%nat then
                 (complete_lines ++ [current_line label], out)
               else
                 let prev_label := nth (i - 1) labels_path label in
                 let curr_label := label in
                 let is_transfer :=
                   negb (current_line prev_label =? current_line curr_label)%string in
                 if is_transfer then
                   if negb (current_station_cd curr_label
                            =? current_station_cd prev_label)%string
                   then (complete_lines ++ [current_line curr_label], out)
                   else (complete_lines, out)
                 else
                   let '(intermediates, printed) :=
                     _get_intermediate_stations
                       (current_station_cd prev_label)
                       (current_station_cd curr_label)
                       (current_line curr_label)
                       (current_direction curr_label)
                       line_stations station_order_map in
                   (complete_lines
                      ++ repeat (current_line curr_label) (length intermediates),
                    out ++ printed))
            ([], []) (Py.enumerate labels_path)
  | _, _ => (rev (map current_line (ancestors self)), [])
  end.

Definition reconstruct_transfer_info (self : t) : list (string * string * string) :=
  rev (omap transfer_info (ancestors self)).

End Label.

(** ** The legacy [Label] class ([label.py]) *)

Module LegacyLabel.

(** The declared fields of the dataclass, in the order of the class body.
    ([dataclass] itself rejects this order, a field without a default after
    [transfer_difficulty_list], which has one; the record is what an
    instance of the class would hold.) *)
Record t : Type := mk {
  arrival_time : float;
  transfers : Z;
  transfer_difficulty_list : list float;
  convenience_sum : float;
  congestion_sum : float;
  route : list string;
  lines : list string;
  transfer_context : list (string * string * string);
  created_round : Z
}.

(** The values an attribute of a legacy label evaluates to. *)
Inductive PyValue : Type :=
  | VFloat (x : float)
  | VInt (n : Z)
  | VFloatList (xs : list float)
  | VStrList (xs : list string)
  | VTripleList (xs : list (string * string * string))
  | VMethod (name : string).

Definition route_length (self : t) : Z :=
  Z.max 1 (Z.of_nat (length (route self))).

Definition avg_convenience (self : t) : result float :=
  Py.truediv_float_int (convenience_sum self) (route_length self).

Definition avg_congestion (self : t) : result float :=
  Py.truediv_float_int (congestion_sum self) (route_length self).

Definition max_transfer_difficulty (self : t) : float :=
  Py.max_default (transfer_difficulty_list self) 0%float.

(** The methods the class body defines. *)
Definition methods : list string :=
  ["dominates"; "calculate_weighted_score"; "__eq__"; "__hash__"]%string.

(** [self.name]: a declared field, a property or a method of the class
    body; any other name is an [AttributeError].  The names every object
    has ([__class__], [__dict__], ...) and the methods [dataclass] adds are
    left out: no method modelled here reads them. *)
Definition getattr (self : t) (name : string) : result PyValue :=
  if (name =? "arrival_time")%string then Ok (VFloat (arrival_time self))
  else if (name =? "transfers")%string then Ok (VInt (transfers self))
  else if (name =? "transfer_difficulty_list")%string
       then Ok (VFloatList (transfer_difficulty_list self))
  else if (name =? "convenience_sum")%string then Ok (VFloat (convenience_sum self))
  else if (name =? "congestion_sum")%string then Ok (VFloat (congestion_sum self))
  else if (name =? "route")%string then Ok (VStrList (route self))
  else if (name =? "lines")%string then Ok (VStrList (lines self))
  else if (name =? "transfer_context")%string
       then Ok (VTripleList (transfer_context self))
  else if (name =? "created_round")%string then Ok (VInt (created_round self))
  else if (name =? "route_length")%string then Ok (VInt (route_length self))
  else if (name =? "avg_convenience")%string
       then x ← avg_convenience self; mret (VFloat x)
  else if (name =? "avg_congestion")%string
       then x ← avg_congestion self; mret (VFloat x)
  else if (name =? "max_transfer_difficulty")%string
       then Ok (VFloat (max_transfer_difficulty self))
  else if bool_decide (name ∈ methods) then Ok (VMethod name)
  else Raise (AttributeError name).

(** [v / b], [min(v, b)] and [w * v] for an attribute value [v] and
    floats [b], [w]. *)
Definition truediv_value (v : PyValue) (b : float) : result float :=
  match v with
  | VFloat a => Py.truediv a b
  | VInt n => Py.truediv_int_float n b
  | _ => Raise TypeError
  end.

Definition min_value (v : PyValue) (b : float) : result PyValue :=
  match v with
  | VFloat a => Ok (VFloat (Py.min a b))
  | VInt n => Ok (if Py.float_lt_int b n then VFloat b else VInt n)
  | _ => Raise TypeError
  end.

Definition mul_value (w : float) (v : PyValue) : result float :=
  match v with
  | VFloat a => Ok (w * a)%float
  | VInt n => a ← Py.int_to_float n; mret (w * a)%float
  | _ => Raise TypeError
  end.

Definition calculate_weighted_score (self : t) (anp_weights : gmap string float)
    : result float :=
  norm_time ← (a ← getattr self "arrival_time";
               x ← truediv_value a 120%float; mret (Py.min x 1%float));
  norm_transfers ← (n ← getattr self "transfers";
                    x ← truediv_value n 4%float; mret (Py.min x 1%float));
  norm_difficulty ← getattr self "max_transfer_difficulty";
  norm_convenience ← (c ← getattr self "convenience_score";
                      x ← truediv_value c 5%float; mret (1 - x)%float);
  norm_congestion ← (g ← getattr self "congestion_score"; min_value g 1%float);
  t1 ← mret (Py.get_default anp_weights "travel_time" 0.2 * norm_time)%float;
  t2 ← mret (Py.get_default anp_weights "transfers" 0.2 * norm_transfers)%float;
  t3 ← mul_value (Py.get_default anp_weights "transfer_difficulty" 0.2) norm_difficulty;
  t4 ← mret (Py.get_default anp_weights "convenience" 0.2 * norm_convenience)%float;
  t5 ← mul_value (Py.get_default anp_weights "congestion" 0.2) norm_congestion;
  mret (t1 + t2 + t3 + t4 + t5)%float.

End LegacyLabel.

(** * Statements of the label algebra, in the terms of the specification *)

Module Spec.
Import Label.

(** The criteria a label stores are numbers: none of them is NaN. *)
Definition numeric (l : t) : Prop :=
  is_nan (arrival_time l) = false
  /\ is_nan (max_transfer_difficulty l) = false
  /\ is_nan (convenience_sum l) = false
  /\ is_nan (congestion_sum l) = false.

(** What the code tests, for every float including NaN: no criterion is
    strictly worse, and one is strictly better. *)
Definition not_worse_and_better (a b : t) (g1 g2 c1 c2 : float) : Prop :=
  Py.gt (max_transfer_difficulty a) (max_transfer_difficulty b) = false
  /\ Py.gt (arrival_time a) (arrival_time b) = false
  /\ Py.gt g1 g2 = false
  /\ Py.lt c1 c2 = false
  /\ (Py.lt (max_transfer_difficulty a) (max_transfer_difficulty b)
      || Py.lt (arrival_time a) (arrival_time b)
      || Py.lt g1 g2 || Py.gt c1 c2) = true.

(** [a] is no worse than [b] on each of the five criteria; [g] and [c] are
    the congestion and convenience means of the two labels. *)
Definition no_worse (a b : t) (ga gb ca cb : float) : Prop :=
  Py.le (arrival_time a) (arrival_time b) = true
  /\ Py.le (max_transfer_difficulty a) (max_transfer_difficulty b) = true
  /\ Py.le ga gb = true
  /\ Py.ge ca cb = true
  /\ transfers a = transfers b.

(** [a] is strictly better than [b] on at least one criterion. *)
Definition strictly_better (a b : t) (ga gb ca cb : float) : Prop :=
  Py.lt (arrival_time a) (arrival_time b) = true
  \/ Py.lt (max_transfer_difficulty a) (max_transfer_difficulty b) = true
  \/ Py.lt ga gb = true
  \/ Py.gt ca cb = true
  \/ transfers a < transfers b.

(** Pareto dominance inside one bucket. *)
Definition pareto_dominates (a b : t) : Prop :=
  bucket_key a = bucket_key b
  /\ exists ga gb ca cb,
       avg_congestion a = Ok ga /\ avg_congestion b = Ok gb
       /\ avg_convenience a = Ok ca /\ avg_convenience b = Ok cb
       /\ no_worse a b ga gb ca cb
       /\ strictly_better a b ga gb ca cb.

End Spec.

Module SpecVector.

(** The profile weight of a criterion, 0.2 when the profile has none. *)
Definition weight (w : gmap string float) (criterion : string) : float :=
  default 0.2%float (w !! criterion).

(** [[arrival/90, transfers/3, max_difficulty, mean_convenience/5,
    mean_congestion/1.3]]. *)
Definition cost_vector
    (arrival transfers max_difficulty mean_convenience mean_congestion : float)
    : list float :=
  [(arrival / 90)%float; (transfers / 3)%float; max_difficulty;
   (mean_convenience / 5)%float; (mean_congestion / 1.3)%float].

(** A value capped at 1. *)
Definition capped (x : float) : float :=
  if PrimFloat.ltb 1 x then 1%float else x.

(** The five normalised penalties, each under its criterion key. *)
Definition penalties
    (arrival transfers max_difficulty mean_convenience mean_congestion : float)
    : list (string * float) :=
  [("travel_time"%string, capped (arrival / 120)%float);
   ("transfers"%string, capped (transfers / 4)%float);
   ("transfer_difficulty"%string, max_difficulty);
   ("convenience"%string, (1 - mean_convenience / 5)%float);
   ("congestion"%string, capped mean_congestion)].

(** The sum of [weight * value] over the listed criteria, left to right. *)
Definition weighted_sum (w : gmap string float) (terms : list (string * float))
    : float :=
  match terms with
  | [] => 0%float
  | (c, x) :: rest =>
      fold_left (fun acc '(c, x) => (acc + weight w c * x)%float) rest
                (weight w c * x)%float
  end.

(** The sum over the criteria of weight times squared difference of the
    components of two cost vectors. *)
Definition weighted_square_sum (w : gmap string float) (v1 v2 : list float)
    : float :=
  fold_left (fun acc '(c, (x1, x2)) =>
               (acc + weight w c * (x1 - x2) * (x1 - x2))%float)
            (combine Label.criteria (combine v1 v2)) 0%float.

(** The weighted Euclidean distance. *)
Definition weighted_euclidean (w : gmap string float) (v1 v2 : list float) : float :=
  PrimFloat.sqrt (weighted_square_sum w v1 v2).

End SpecVector.

Module SpecRoute.

(** The stations of [line] whose order lies in the half-open range
    [(lo, hi]], each with its order, in the order of the dict. *)
Definition stations_between (line : string) (lo hi : Z) (m : OrderMap)
    : list (Z * string) :=
  map (fun '((s_cd, _), s_order) => (s_order, s_cd))
      (List.filter (fun '((_, s_line), s_order) =>
                 (s_line =? line)%string && (lo <? s_order) && (s_order <=? hi)) m).

(** No station of [line] has its order in [(lo, hi]]. *)
Definition empty_range (line : string) (lo hi : Z) (m : OrderMap) : Prop :=
  forall s_cd s_order, In ((s_cd, line), s_order) m -> ~ (lo < s_order <= hi).

(** The cases in which no sweep is found: the order of an endpoint is
    missing, or no station of the line lies in the order range. *)
Definition fallback_condition (from_cd to_cd line : string) (m : OrderMap) : Prop :=
  dict_get m (from_cd, line) = None
  \/ dict_get m (to_cd, line) = None
  \/ exists from_order to_order,
       dict_get m (from_cd, line) = Some from_order
       /\ dict_get m (to_cd, line) = Some to_order
       /\ empty_range line (Z.min from_order to_order)
            (Z.max from_order to_order) m.

(** Ascending by order. *)
Definition ascending (l : list (Z * string)) : Prop :=
  Sorted (fun x y => fst x <= fst y) l.

(** What one parent/child pair of labels adds to the route. *)
Definition leg (line_stations : LineStations) (station_order_map : OrderMap)
    (prev curr : Label.t) : list string :=
  if negb (Label.current_line prev =? Label.current_line curr)%string then
    if negb (Label.current_station_cd curr =? Label.current_station_cd prev)%string
    then [Label.current_station_cd curr] else []
  else
    fst (_get_intermediate_stations
           (Label.current_station_cd prev) (Label.current_station_cd curr)
           (Label.current_line curr) (Label.current_direction curr)
           line_stations station_order_map).

End SpecRoute.

(** ** Sample data *)

Module Examples.

(** Three stations of one line, in the order A, B, C. *)
Definition line_L : OrderMap :=
  [(("A", "L"), 1); (("B", "L"), 2); (("C", "L"), 3)]%string.

Definition no_line_stations : LineStations := ∅.

(** A ride from C down to A: the root label at C and its child at A. *)
Definition at_C : Label.t :=
  Label.mk 0 0 0 0 0 None "C" "L" "down" {["C"%string]} 1 None true 0.
Definition at_A_from_C : Label.t :=
  Label.mk 4 0 1 0.5 0 (Some at_C) "A" "L" "down" {["C"%string; "A"%string]}
           2 None false 1.

(** A ride from A up to C. *)
Definition at_A : Label.t :=
  Label.mk 0 0 0 0 0 None "A" "L" "up" {["A"%string]} 1 None true 0.
Definition at_C_from_A : Label.t :=
  Label.mk 4 0 1 0.5 0 (Some at_A) "C" "L" "up" {["A"%string; "C"%string]}
           2 None false 1.

(** A ride from A to a station Z that the order map does not know. *)
Definition at_Z_from_A : Label.t :=
  Label.mk 6 0 1 0.5 0 (Some at_A) "Z" "L" "up" {["A"%string; "Z"%string]}
           2 None false 1.

(** Two labels of one bucket, born by a transfer at A from line L to line
    M; the first arrives earlier, all else equal. *)
Definition fast : Label.t :=
  Label.mk 10 1 6 0.8 0.3 (Some at_A) "A" "M" "up" {["A"%string]}
           2 (Some ("A", "L", "M")%string) true 1.
Definition slow : Label.t :=
  Label.mk 12 1 6 0.8 0.3 (Some at_A) "A" "M" "up" {["A"%string]}
           2 (Some ("A", "L", "M")%string) true 1.

Definition legacy : LegacyLabel.t :=
  LegacyLabel.mk 10 1 [0.3%float] 6 0.8 ["A"; "C"]%string ["L"; "M"]%string
                 [("A", "L", "M")%string] 1.

End Examples.

(** ** Further models: the legacy dominance test, [label_to_dict] and
    the notions their properties are stated with *)

Module SpecRouteMore.

(** Descending by order. *)
Definition descending (l : list (Z * string)) : Prop :=
  Sorted (fun x y => fst y <= fst x) l.

(** The root of the label tree a label hangs from: the last label reached
    by following the parent pointers. *)
Definition root (l : Label.t) : Label.t := List.last (Label.ancestors l) l.

(** What one parent/child pair of labels adds to the line track. *)
Definition leg_lines (line_stations : LineStations) (station_order_map : OrderMap)
    (prev curr : Label.t) : list string :=
  if negb (Label.current_line prev =? Label.current_line curr)%string then
    if negb (Label.current_station_cd curr =? Label.current_station_cd prev)%string
    then [Label.current_line curr] else []
  else
    repeat (Label.current_line curr)
      (length (fst (_get_intermediate_stations
                      (Label.current_station_cd prev) (Label.current_station_cd curr)
                      (Label.current_line curr) (Label.current_direction curr)
                      line_stations station_order_map))).

End SpecRouteMore.

Module SpecMore.
Import Label.

(** The integers of a label are such that Python converts them to floats
    without rounding, and the depth is not zero. *)
Definition exact_ints (l : t) : Prop :=
  depth l <> 0 /\ Z.abs (depth l) < 2 ^ 53 /\ Z.abs (transfers l) < 2 ^ 53.

End SpecMore.

(** ** The legacy dominance test ([label.py]) *)

Module LegacyDominance.
Import LegacyLabel.

(** One entry [(self_val, other_val, maximize)] of the [criteria] list; the
    transfer counts are ints, the other values floats. *)
Inductive Criterion : Type :=
  | FloatCriterion (self_val other_val : float) (maximize : bool)
  | IntCriterion (self_val other_val : Z) (maximize : bool).

Definition maximize (c : Criterion) : bool :=
  match c with
  | FloatCriterion _ _ b => b
  | IntCriterion _ _ b => b
  end.

(** [self_val < other_val] and [self_val > other_val]. *)
Definition self_lt (c : Criterion) : bool :=
  match c with
  | FloatCriterion s o _ => Py.lt s o
  | IntCriterion s o _ => s <? o
  end.

Definition self_gt (c : Criterion) : bool :=
  match c with
  | FloatCriterion s o _ => Py.gt s o
  | IntCriterion s o _ => s >? o
  end.

(** The [for self_val, other_val, maximize in criteria] loop, with its
    early [return False]. *)
Fixpoint dominates_loop (criteria : list Criterion) (better_in_one : bool) : bool :=
  match criteria with
  | [] => better_in_one
  | c :: rest =>
      if maximize c then
        if self_lt c then false
        else if self_gt c then dominates_loop rest true
        else dominates_loop rest better_in_one
      else
        if self_gt c then false
        else if self_lt c then dominates_loop rest true
        else dominates_loop rest better_in_one
  end.

(** The list literal is evaluated first, left to right; the means are the
    only entries that can raise. *)
Definition dominates (self other : t) : result bool :=
  let better_in_one := false in
  c_self ← avg_convenience self;
  c_other ← avg_convenience other;
  g_self ← avg_congestion self;
  g_other ← avg_congestion other;
  let criteria :=
    [FloatCriterion (arrival_time self) (arrival_time other) false;
     IntCriterion (transfers self) (transfers other) false;
     FloatCriterion (max_transfer_difficulty self) (max_transfer_difficulty other) false;
     FloatCriterion c_self c_other true;
     FloatCriterion g_self g_other false] in
  mret (dominates_loop criteria better_in_one).

End LegacyDominance.

(** ** The response record of a route ([app/main.py]) *)

Module Main.

(** A row of the station table, as far as [label_to_dict] reads it. *)
Record Station : Type := { name : string }.

Record TransferEntry : Type := {
  entry_station_cd : string;
  entry_station_name : string;
  entry_from_line : string;
  entry_to_line : string
}.

(** The dict that [label_to_dict] returns, key by key. *)
Record RouteDict : Type := {
  route : list string;
  route_names : list string;
  lines : list string;
  arrival_time : float;
  transfers : Z;
  transfer_info : list TransferEntry;
  convenience_score : float;
  congestion_score : float;
  max_transfer_difficulty : float;
  route_length : Z;
  weighted_penalty : float;
  rank : Z
}.

(** A [for] loop that appends one computed item per element. *)
Fixpoint for_each {A B} (f : A -> result B) (xs : list A) : result (list B) :=
  match xs with
  | [] => Ok []
  | x :: xs' => y ← f x; ys ← for_each f xs'; mret (y :: ys)
  end.

Section Collaborators.
(** The station lookup of [database.py], the weight calculator of
    [anp_weights] and Python's [round(x, ndigits)] are taken as given. *)
Variable get_station_by_code : string -> result (option Station).
Variable calculate_weights : string -> result (gmap string float).
Variable round : float -> Z -> float.

Definition label_to_dict (label : Label.t) (rank : Z) (disability_type : string)
    : result RouteDict :=
  let route_cds := fst (Label.reconstruct_route label None None) in
  let lines := fst (Label.reconstruct_lines label None None) in
  let transfer_info_list := Label.reconstruct_transfer_info label in
  route_names ← for_each (fun station_cd =>
                   station ← get_station_by_code station_cd;
                   mret (match station with
                         | Some station => name station
                         | None => station_cd
                         end)) route_cds;
  transfers_formatted ← for_each (fun '(station_cd, from_line, to_line) =>
                   station ← get_station_by_code station_cd;
                   mret {| entry_station_cd := station_cd;
                           entry_station_name :=
                             match station with
                             | Some station => name station
                             | None => station_cd
                             end;
                           entry_from_line := from_line;
                           entry_to_line := to_line |}) transfer_info_list;
  weights ← calculate_weights disability_type;
  weighted_penalty ← Label.calculate_weighted_score label weights;
  avg_convenience ← Label.avg_convenience label;
  avg_congestion ← Label.avg_congestion label;
  mret {| route := route_cds;
          route_names := route_names;
          lines := lines;
          arrival_time := round (Label.arrival_time label) 2;
          transfers := Label.transfers label;
          transfer_info := transfers_formatted;
          convenience_score := round avg_convenience 3;
          congestion_score := round avg_congestion 3;
          max_transfer_difficulty := round (Label.max_transfer_difficulty label) 3;
          route_length := Label.route_length label;
          weighted_penalty := round weighted_penalty 3;
          rank := rank |}.

(** The name shown for a station code: the looked-up name, or the code
    itself when the lookup finds no station. *)
Definition display_name (station_cd : string) (shown : string) : Prop :=
  exists station, get_station_by_code station_cd = Ok station
                  /\ shown = match station with
                             | Some station => name station
                             | None => station_cd
                             end.

End Collaborators.

End Main.

Module SpecLegacy.
Import LegacyDominance.

(** The entry of the comparison in the other direction. *)
Definition swap_criterion (c : Criterion) : Criterion :=
  match c with
  | FloatCriterion s o b => FloatCriterion o s b
  | IntCriterion s o b => IntCriterion o s b
  end.

(** The comparison of one entry, as the loop of [dominates] reads it. *)
Definition worse (c : Criterion) : bool :=
  if maximize c then self_lt c else self_gt c.

Definition better (c : Criterion) : bool :=
  if maximize c then self_gt c else self_lt c.

End SpecLegacy.

Module MoreExamples.
Import Examples.

(** A third label of the bucket of [fast] and [slow], arriving last. *)
Definition slower : Label.t :=
  Label.mk 14 1 6 0.8 0.3 (Some at_A) "A" "M" "up" {["A"%string]}
           2 (Some ("A", "L", "M")%string) true 1.

(** A label whose depth is zero. *)
Definition no_depth : Label.t :=
  Label.mk 0 0 0 0 0 None "A" "L" "up" {["A"%string]} 0 None true 0.

(** A legacy label with an empty route and no transfer. *)
Definition legacy_empty : LegacyLabel.t :=
  LegacyLabel.mk 0 0 [] 0 0 [] [] [] 0.

(** A station table that knows station A only, a weight calculator that
    returns no weight, a failing lookup, and a rounding that keeps its
    argument. *)
Definition stations (station_cd : string) : result (option Main.Station) :=
  Ok (if (station_cd =? "A")%string then Some {| Main.name := "Alpha" |} else None).
Definition no_weights (disability_type : string) : result (gmap string float) :=
  Ok ∅.
Definition failing_lookup (station_cd : string) : result (option Main.Station) :=
  Raise TypeError.
Definition keep (x : float) (ndigits : Z) : float := x.

End MoreExamples.

(** * Properties *)

(** ** Facts on binary64 comparison and rounding *)

Section FloatOrder.

Lemma SFcompare_antisym (x y : spec_float) :
  SFcompare y x = option_map CompOpp (SFcompare x y).
Proof.
  destruct x as [sx|sx| |sx mx ex], y as [sy|sy| |sy my ey]; simpl;
    try reflexivity; try (destruct sx; reflexivity); try (destruct sy; reflexivity);
    try (destruct sx, sy; reflexivity).
  destruct sx, sy; simpl; try reflexivity;
    rewrite (Z.compare_antisym ex ey); destruct (ex ?= ey) eqn:E; simpl;
    try reflexivity;
    rewrite (Pos.compare_cont_antisym mx my Eq); simpl;
    destruct (Pos.compare_cont Eq mx my); reflexivity.
Qed.

Lemma SFcompare_refl (x : spec_float) :
  x <> S754_nan -> SFcompare x x = Some Eq.
Proof.
  destruct x as [s|s| |s m e]; simpl; intros H; try congruence.
  - destruct s; reflexivity.
  - rewrite Z.compare_refl, Pos.compare_cont_refl. destruct s; reflexivity.
Qed.

Lemma SFcompare_nan_l (y : spec_float) : SFcompare S754_nan y = None.
Proof. destruct y; reflexivity. Qed.

Lemma SFcompare_some (x y : spec_float) :
  x <> S754_nan -> y <> S754_nan -> exists c, SFcompare x y = Some c.
Proof.
  destruct x, y; simpl; intros; try congruence; eauto.
Qed.

Lemma is_nan_spec (x : float) : is_nan x = false <-> Prim2SF x <> S754_nan.
Proof.
  unfold is_nan. rewrite FloatAxioms.eqb_spec. unfold SFeqb. split.
  - intros H E. rewrite E in H. simpl in H. discriminate.
  - intros H. rewrite (SFcompare_refl _ H). reflexivity.
Qed.

Lemma ltb_asym (x y : float) : PrimFloat.ltb x y = true -> PrimFloat.ltb y x = false.
Proof.
  rewrite !FloatAxioms.ltb_spec. unfold SFltb.
  rewrite (SFcompare_antisym (Prim2SF x) (Prim2SF y)).
  destruct (SFcompare (Prim2SF x) (Prim2SF y)) as [[]|]; simpl; congruence.
Qed.

Lemma leb_not_gt (x y : float) : PrimFloat.leb x y = true -> PrimFloat.ltb y x = false.
Proof.
  rewrite FloatAxioms.leb_spec, FloatAxioms.ltb_spec. unfold SFleb, SFltb.
  rewrite (SFcompare_antisym (Prim2SF x) (Prim2SF y)).
  destruct (SFcompare (Prim2SF x) (Prim2SF y)) as [[]|]; simpl; congruence.
Qed.

Lemma not_gt_leb (x y : float) :
  is_nan x = false -> is_nan y = false ->
  PrimFloat.ltb y x = false -> PrimFloat.leb x y = true.
Proof.
  rewrite !is_nan_spec, FloatAxioms.leb_spec, FloatAxioms.ltb_spec.
  unfold SFleb, SFltb. intros Hx Hy.
  rewrite (SFcompare_antisym (Prim2SF x) (Prim2SF y)).
  destruct (SFcompare_some _ _ Hx Hy) as [c ->]. destruct c; simpl; congruence.
Qed.

End FloatOrder.

Section Rounding.

Lemma shr_1_nonneg (mrs : shr_record) : 0 <= shr_m mrs -> 0 <= shr_m (shr_1 mrs).
Proof.
  destruct mrs as [m r s]; simpl. destruct m as [|[p|p|]|[p|p|]]; simpl; lia.
Qed.

Lemma iter_shr_1_nonneg (p : positive) (mrs : shr_record) :
  0 <= shr_m mrs -> 0 <= shr_m (SpecFloat.iter_pos shr_1 p mrs).
Proof.
  revert mrs. induction p as [p IH|p IH|]; intros mrs H; simpl.
  - apply IH, IH, shr_1_nonneg, H.
  - apply IH, IH, H.
  - apply shr_1_nonneg, H.
Qed.

Lemma shr_fexp_nonneg (m e : Z) (l : location) :
  0 <= m -> 0 <= shr_m (fst (shr_fexp prec emax m e l)).
Proof.
  intros H. unfold shr_fexp, shr.
  assert (H0 : 0 <= shr_m (shr_record_of_loc m l)) by (destruct l as [|[]]; exact H).
  destruct (fexp prec emax (Zdigits2 m + e) - e); simpl; auto using iter_shr_1_nonneg.
Qed.

Lemma round_nearest_even_nonneg (m : Z) (l : location) :
  0 <= m -> 0 <= round_nearest_even m l.
Proof.
  intros H. destruct l as [|[]]; simpl; try lia. destruct (Z.even m); lia.
Qed.

Lemma binary_round_aux_not_nan (sx : bool) (mx ex : Z) (lx : location) :
  0 <= mx -> binary_round_aux prec emax sx mx ex lx <> S754_nan.
Proof.
  intros H. unfold binary_round_aux.
  pose proof (shr_fexp_nonneg mx ex lx H) as H1.
  destruct (shr_fexp prec emax mx ex lx) as [mrs' e']. simpl in H1.
  pose proof (shr_fexp_nonneg _ e' loc_Exact
                (round_nearest_even_nonneg _ (loc_of_shr_record mrs') H1)) as H2.
  destruct (shr_fexp prec emax (round_nearest_even _ _) e' loc_Exact) as [mrs'' e''].
  simpl in H2. destruct (shr_m mrs'') as [|m|m]; try lia; try discriminate.
  destruct (e'' <=? emax - prec); discriminate.
Qed.

Lemma binary_round_not_nan (sx : bool) (mx : positive) (ex : Z) :
  binary_round prec emax sx mx ex <> S754_nan.
Proof.
  unfold binary_round. destruct (shl_align _ _ _) as [mz ez].
  apply binary_round_aux_not_nan. lia.
Qed.

Lemma binary_normalize_not_nan (m e : Z) (s : bool) :
  binary_normalize prec emax m e s <> S754_nan.
Proof.
  destruct m; simpl; try discriminate; apply binary_round_not_nan.
Qed.

Lemma SF2Prim_not_nan (x : spec_float) :
  x <> S754_nan -> Prim2SF (SF2Prim x) <> S754_nan.
Proof.
  destruct x as [[]|[]| |s m e]; intros H; try congruence;
    try (vm_compute; discriminate).
  unfold SF2Prim.
  assert (Hf : Prim2SF (Z.ldexp (of_uint63 (Uint63.of_Z (Z.pos m))) e) <> S754_nan).
  { rewrite Z_ldexp_spec, of_uint63_spec. unfold SFldexp.
    pose proof (binary_normalize_not_nan (Uint63.to_Z (Uint63.of_Z (Z.pos m))) 0 false) as Hn.
    destruct (binary_normalize _ _ _ _ _); try congruence; try discriminate.
    apply binary_round_not_nan. }
  destruct s; [|exact Hf].
  rewrite opp_spec. destruct (Prim2SF _); simpl; congruence.
Qed.

Lemma SFdiv_not_nan (x : spec_float) (s : bool) (m : positive) (e : Z) :
  x <> S754_nan -> SF64div x (S754_finite s m e) <> S754_nan.
Proof.
  intros H. destruct x as [sx|sx| |sx mx ex]; simpl; try congruence; try discriminate.
  unfold SF64div, SFdiv, SFdiv_core_binary.
  set (m' := match _ with Z0 => _ | Zpos _ => _ | Zneg _ => _ end).
  assert (Hm : 0 <= m').
  { unfold m'. destruct (_ - _ - _); try lia. apply Z.shiftl_nonneg. lia. }
  pose proof (Z_div_mod m' (Z.pos m) ltac:(lia)) as Hd.
  destruct (Z.div_eucl m' (Z.pos m)) as [q r].
  apply binary_round_aux_not_nan. nia.
Qed.

End Rounding.

Section Averages.

Lemma int_to_float_finite (n : Z) (d : float) :
  Py.int_to_float n = Ok d ->
  Prim2SF d <> S754_nan /\ forall s, Prim2SF d <> S754_infinity s.
Proof.
  unfold Py.int_to_float. destruct (is_infinity _) eqn:Hinf; [discriminate|].
  intros [= <-]. split.
  - apply SF2Prim_not_nan, binary_normalize_not_nan.
  - intros s E. unfold is_infinity in Hinf.
    rewrite FloatAxioms.eqb_spec, abs_spec, E in Hinf. vm_compute in Hinf. discriminate.
Qed.

Lemma truediv_not_nan (x d v : float) :
  Py.truediv x d = Ok v ->
  is_nan x = false -> Prim2SF d <> S754_nan ->
  (forall s, Prim2SF d <> S754_infinity s) ->
  is_nan v = false.
Proof.
  unfold Py.truediv. destruct (PrimFloat.eqb d 0) eqn:Hz; [discriminate|].
  intros [= <-] Hx Hd Hi. apply is_nan_spec. apply is_nan_spec in Hx.
  rewrite div_spec. rewrite FloatAxioms.eqb_spec in Hz.
  destruct (Prim2SF d) as [s|s| |s m e] eqn:E.
  - destruct s; vm_compute in Hz; discriminate.
  - destruct (Hi s eq_refl).
  - congruence.
  - apply SFdiv_not_nan, Hx.
Qed.

Lemma truediv_float_int_not_nan (x : float) (n : Z) (v : float) :
  Py.truediv_float_int x n = Ok v -> is_nan x = false -> is_nan v = false.
Proof.
  unfold Py.truediv_float_int. destruct (Py.int_to_float n) as [d|e] eqn:E; [|discriminate].
  simpl. intros H Hx. destruct (int_to_float_finite _ _ E) as [Hn Hi].
  eapply truediv_not_nan; eauto.
Qed.

End Averages.

(** ** Dominance *)

Section Dominance.
Import Label Spec.

Lemma criterion_unfold {A} (lt gt : A -> A -> bool) (a b : A) (better : bool) :
  (forall x y, lt x y = true -> gt x y = false) ->
  criterion lt gt a b better = if gt a b then None else Some (lt a b || better).
Proof.
  intros Hasym. unfold criterion. destruct (lt a b) eqn:E.
  - rewrite (Hasym _ _ E). reflexivity.
  - reflexivity.
Qed.

Lemma Zlt_gt_asym (x y : Z) : (x <? y) = true -> (x >? y) = false.
Proof. rewrite Z.gtb_ltb. intros H. apply Z.ltb_lt in H. apply Z.ltb_ge. lia. Qed.

Lemma bucket_key_eqb (a b : t) :
  bucket_key a = bucket_key b <->
  (current_station_cd a =? current_station_cd b)%string = true
  /\ (current_line a =? current_line b)%string = true
  /\ (transfers a =? transfers b) = true.
Proof.
  unfold bucket_key. rewrite !String.eqb_eq, Z.eqb_eq. split.
  - intros [= -> -> ->]. auto.
  - intros (-> & -> & ->). reflexivity.
Qed.

(** Labels of different buckets are never in the relation. *)
Lemma dominates_other_bucket (a b : t) :
  bucket_key a <> bucket_key b -> dominates a b = Ok false.
Proof.
  intros H. unfold dominates.
  destruct (current_station_cd a =? current_station_cd b)%string eqn:E1; [|reflexivity].
  destruct (current_line a =? current_line b)%string eqn:E2; [|reflexivity].
  destruct (transfers a =? transfers b) eqn:E3; [|reflexivity].
  destruct H. apply bucket_key_eqb. auto.
Qed.

Lemma dominates_true_iff (a b : t) :
  dominates a b = Ok true <->
  bucket_key a = bucket_key b
  /\ exists g1 g2 c1 c2,
       avg_congestion a = Ok g1 /\ avg_congestion b = Ok g2
       /\ avg_convenience a = Ok c1 /\ avg_convenience b = Ok c2
       /\ not_worse_and_better a b g1 g2 c1 c2.
Proof.
  unfold dominates, not_worse_and_better. rewrite bucket_key_eqb. split.
  - destruct (current_station_cd a =? current_station_cd b)%string; [|simpl; intros; congruence].
    destruct (current_line a =? current_line b)%string; [|simpl; intros; congruence].
    destruct (transfers a =? transfers b) eqn:Et; [|simpl; intros; congruence].
    apply Z.eqb_eq in Et. simpl.
    rewrite (criterion_unfold Z.ltb Z.gtb) by apply Zlt_gt_asym.
    rewrite Z.gtb_ltb, Et, Z.ltb_irrefl. simpl.
    rewrite (criterion_unfold Py.lt Py.gt) by apply ltb_asym.
    destruct (Py.gt (max_transfer_difficulty a) _) eqn:N1; [simpl; intros; congruence|].
    simpl. rewrite (criterion_unfold Py.lt Py.gt) by apply ltb_asym.
    destruct (Py.gt (arrival_time a) _) eqn:N2; [simpl; intros; congruence|].
    simpl.
    destruct (avg_congestion a) as [g1|]; [|simpl; intros; congruence].
    destruct (avg_congestion b) as [g2|]; [|simpl; intros; congruence]. simpl.
    rewrite (criterion_unfold Py.lt Py.gt) by apply ltb_asym.
    destruct (Py.gt g1 g2) eqn:N3; [simpl; intros; congruence|].
    destruct (avg_convenience a) as [c1|]; [|simpl; intros; congruence].
    destruct (avg_convenience b) as [c2|]; [|simpl; intros; congruence]. simpl.
    rewrite (criterion_unfold Py.gt Py.lt) by (intros x y; apply ltb_asym).
    destruct (Py.lt c1 c2) eqn:N4; [simpl; intros; congruence|].
    intros [= H]. split; [auto|]. exists g1, g2, c1, c2.
    repeat split; auto. rewrite <- H, !orb_false_r.
    destruct (Py.lt (max_transfer_difficulty a) _), (Py.lt (arrival_time a) _),
      (Py.lt g1 g2), (Py.gt c1 c2); reflexivity.
  - intros ((-> & -> & Et) & g1 & g2 & c1 & c2 & -> & -> & -> & -> & N1 & N2 & N3 & N4 & H).
    rewrite Et. apply Z.eqb_eq in Et. simpl.
    rewrite (criterion_unfold Z.ltb Z.gtb) by apply Zlt_gt_asym.
    rewrite Z.gtb_ltb, Et, Z.ltb_irrefl. simpl.
    rewrite (criterion_unfold Py.lt Py.gt), N1 by apply ltb_asym. simpl.
    rewrite (criterion_unfold Py.lt Py.gt), N2 by apply ltb_asym. simpl.
    rewrite (criterion_unfold Py.lt Py.gt), N3 by apply ltb_asym. simpl.
    rewrite (criterion_unfold Py.gt Py.lt), N4 by (intros x y; apply ltb_asym).
    f_equal. rewrite <- H, !orb_false_r.
    destruct (Py.lt (max_transfer_difficulty a) _), (Py.lt (arrival_time a) _),
      (Py.lt g1 g2), (Py.gt c1 c2); reflexivity.
Qed.

(** A strict advantage one way excludes dominance the other way. *)
Lemma dominates_asym (a b : t) :
  dominates a b = Ok true -> dominates b a = Ok true -> False.
Proof.
  rewrite !dominates_true_iff.
  intros (_ & g1 & g2 & c1 & c2 & Hg1 & Hg2 & Hc1 & Hc2 & _ & _ & _ & _ & H).
  intros (_ & g2' & g1' & c2' & c1' & Hg2' & Hg1' & Hc2' & Hc1' & N1 & N2 & N3 & N4 & _).
  simplify_eq. unfold Py.gt, Py.lt in *.
  rewrite !orb_true_iff in H. destruct H as [[[H|H]|H]|H]; congruence.
Qed.

End Dominance.

Section DominanceClaims.
Import Label Spec.

Lemma avg_numeric (l : t) (g c : float) :
  numeric l -> avg_congestion l = Ok g -> avg_convenience l = Ok c ->
  is_nan g = false /\ is_nan c = false.
Proof.
  intros (_ & _ & Hc & Hg) H1 H2. split.
  - eapply truediv_float_int_not_nan; eauto.
  - eapply truediv_float_int_not_nan; eauto.
Qed.

(** C1: [dominates] is false across buckets, and inside a bucket, for
    labels whose criteria are numbers, it is true exactly when the first
    label is no worse on all five criteria ([<=] on arrival time, transfer
    difficulty and mean congestion, [>=] on mean convenience, equal
    transfers) and strictly better on one; the comparisons are the exact
    float comparisons. *)
Theorem dominates_iff_pareto (a b : t) :
  (bucket_key a <> bucket_key b -> dominates a b = Ok false)
  /\ (numeric a -> numeric b ->
      (dominates a b = Ok true <-> pareto_dominates a b)).
Proof.
  split; [apply dominates_other_bucket|].
  intros Ha Hb. rewrite dominates_true_iff.
  unfold pareto_dominates, not_worse_and_better, no_worse, strictly_better.
  split.
  - intros (Hk & g1 & g2 & c1 & c2 & Hg1 & Hg2 & Hc1 & Hc2 & N1 & N2 & N3 & N4 & H).
    split; [exact Hk|]. exists g1, g2, c1, c2.
    destruct (avg_numeric _ _ _ Ha Hg1 Hc1) as [Ng1 Nc1].
    destruct (avg_numeric _ _ _ Hb Hg2 Hc2) as [Ng2 Nc2].
    destruct Ha as (Ha1 & Ha2 & _), Hb as (Hb1 & Hb2 & _).
    repeat split; auto.
    + apply not_gt_leb; auto.
    + apply not_gt_leb; auto.
    + apply not_gt_leb; auto.
    + apply not_gt_leb; auto.
    + injection Hk; auto.
    + rewrite !orb_true_iff in H. tauto.
  - intros (Hk & g1 & g2 & c1 & c2 & Hg1 & Hg2 & Hc1 & Hc2
            & (L1 & L2 & L3 & L4 & Ht) & S).
    split; [exact Hk|]. exists g1, g2, c1, c2. repeat split; auto.
    + apply leb_not_gt, L2.
    + apply leb_not_gt, L1.
    + apply leb_not_gt, L3.
    + apply leb_not_gt, L4.
    + rewrite !orb_true_iff. destruct S as [S|[S|[S|[S|S]]]]; auto. lia.
Qed.

(** C3: two labels never dominate each other. *)
Theorem dominates_antisymmetric (a b : t) :
  ~ (dominates a b = Ok true /\ dominates b a = Ok true).
Proof.
  intros [Hab Hba]. exact (dominates_asym a b Hab Hba).
Qed.

End DominanceClaims.

(** ** Cost vector, weighted score, epsilon-similarity *)

Section Vectors.
Import Label SpecVector.

Lemma get_default_weight (w : gmap string float) (c : string) :
  Py.get_default w c 0.2%float = weight w c.
Proof. unfold Py.get_default, weight. destruct (w !! c); reflexivity. Qed.

Lemma truediv_const (a b : float) :
  PrimFloat.eqb b 0 = false -> Py.truediv a b = Ok (a / b)%float.
Proof. unfold Py.truediv. intros ->. reflexivity. Qed.

Lemma truediv_int_float_const (n : Z) (a b : float) :
  Py.int_to_float n = Ok a -> PrimFloat.eqb b 0 = false ->
  Py.truediv_int_float n b = Ok (a / b)%float.
Proof. unfold Py.truediv_int_float. intros -> H. simpl. apply truediv_const, H. Qed.

(** C4: the normalised vector is
    [[arrival_time/90, transfers/3, max_transfer_difficulty,
      mean_convenience/5, mean_congestion/1.3]], the two means being
    [convenience_sum/depth] and [congestion_sum/depth]. *)
Theorem get_normalized_vector_spec (l : t) (n mean_convenience mean_congestion : float) :
  Py.int_to_float (transfers l) = Ok n ->
  Py.truediv_float_int (convenience_sum l) (depth l) = Ok mean_convenience ->
  Py.truediv_float_int (congestion_sum l) (depth l) = Ok mean_congestion ->
  get_normalized_vector l
  = Ok (cost_vector (arrival_time l) n (max_transfer_difficulty l)
          mean_convenience mean_congestion).
Proof.
  intros Hn Hc Hg. unfold get_normalized_vector, avg_convenience, avg_congestion.
  rewrite Hc, Hg, (truediv_int_float_const _ _ _ Hn) by reflexivity.
  reflexivity.
Qed.

Lemma py_min_capped (x : float) : Py.min x 1 = capped x.
Proof. reflexivity. Qed.

(** C5: the weighted score is the weighted sum of the five normalised
    penalties, each weight defaulting to 0.2. *)
Theorem calculate_weighted_score_spec (l : t) (w : gmap string float)
    (n mean_convenience mean_congestion : float) :
  Py.int_to_float (transfers l) = Ok n ->
  Py.truediv_float_int (convenience_sum l) (depth l) = Ok mean_convenience ->
  Py.truediv_float_int (congestion_sum l) (depth l) = Ok mean_congestion ->
  calculate_weighted_score l w
  = Ok (weighted_sum w
          (penalties (arrival_time l) n (max_transfer_difficulty l)
             mean_convenience mean_congestion)).
Proof.
  intros Hn Hc Hg. unfold calculate_weighted_score, avg_convenience, avg_congestion.
  rewrite Hc, Hg, (truediv_int_float_const _ _ _ Hn) by reflexivity.
  simpl. rewrite !get_default_weight, !py_min_capped. reflexivity.
Qed.

End Vectors.

Section Similarity.
Import Label SpecVector.

Lemma bind_Ok {A B} (m : result A) (f : A -> result B) (b : B) :
  m ≫= f = Ok b <-> exists a, m = Ok a /\ f a = Ok b.
Proof.
  destruct m as [a|e]; simpl; split.
  - eauto.
  - intros (a' & [= <-] & H). exact H.
  - discriminate.
  - intros (a' & [=] & _).
Qed.

Lemma get_normalized_vector_shape (l : t) (v : list float) :
  get_normalized_vector l = Ok v -> exists x0 x1 x2 x3 x4, v = [x0; x1; x2; x3; x4].
Proof.
  unfold get_normalized_vector. intros H.
  repeat (apply bind_Ok in H; destruct H as (? & _ & H)).
  injection H as <-. eauto 6.
Qed.

(** The loop of [weighted_distance], once both vectors are known. *)
Lemma weighted_distance_unfold (a b : t) (w : gmap string float) (va vb : list float) :
  get_normalized_vector a = Ok va -> get_normalized_vector b = Ok vb ->
  weighted_distance a b w = Py.sqrt (weighted_square_sum w va vb).
Proof.
  intros Ha Hb. unfold weighted_distance. rewrite Ha, Hb.
  destruct (get_normalized_vector_shape _ _ Ha) as (a0 & a1 & a2 & a3 & a4 & ->).
  destruct (get_normalized_vector_shape _ _ Hb) as (b0 & b1 & b2 & b3 & b4 & ->).
  unfold weighted_square_sum. simpl. rewrite !get_default_weight. reflexivity.
Qed.

Lemma py_sqrt_le (x eps : float) :
  (exists d, Py.sqrt x = Ok d /\ Py.le d eps = true)
  <-> Py.le (PrimFloat.sqrt x) eps = true.
Proof.
  unfold Py.sqrt. split.
  - intros (d & H & Hd). destruct (is_nan (PrimFloat.sqrt x) && negb (is_nan x));
      [discriminate|]. injection H as <-. exact Hd.
  - intros H. destruct (is_nan (PrimFloat.sqrt x)) eqn:E; simpl.
    + exfalso. unfold Py.le in H. rewrite FloatAxioms.leb_spec in H.
      assert (Hn : Prim2SF (PrimFloat.sqrt x) = S754_nan).
      { destruct (Prim2SF (PrimFloat.sqrt x)) eqn:E'; try reflexivity;
          assert (is_nan (PrimFloat.sqrt x) = false)
            by (apply is_nan_spec; rewrite E'; discriminate); congruence. }
      rewrite Hn in H. unfold SFleb in H. rewrite SFcompare_nan_l in H. discriminate.
    + eauto.
Qed.

(** C6: two labels are epsilon-similar exactly when the weighted Euclidean
    distance of their normalised cost vectors is at most epsilon. *)
Theorem epsilon_similar_iff (a b : t) (epsilon : float) (w : gmap string float) :
  epsilon_similar a b epsilon w = Ok true <->
  exists va vb,
    get_normalized_vector a = Ok va /\ get_normalized_vector b = Ok vb
    /\ Py.le (weighted_euclidean w va vb) epsilon = true.
Proof.
  unfold epsilon_similar, weighted_euclidean. split.
  - intros H.
    destruct (get_normalized_vector a) as [va|] eqn:Ha;
      [|unfold weighted_distance in H; rewrite Ha in H; discriminate].
    destruct (get_normalized_vector b) as [vb|] eqn:Hb;
      [|unfold weighted_distance in H; rewrite Ha, Hb in H; discriminate].
    rewrite (weighted_distance_unfold a b w va vb Ha Hb) in H.
    exists va, vb. repeat split. apply py_sqrt_le.
    destruct (Py.sqrt _) as [d|]; [|discriminate]. exists d. split; [reflexivity|].
    injection H as H. exact H.
  - intros (va & vb & Ha & Hb & H).
    rewrite (weighted_distance_unfold a b w va vb Ha Hb).
    apply py_sqrt_le in H. destruct H as (d & -> & Hd). simpl. rewrite Hd. reflexivity.
Qed.

End Similarity.

(** ** Equality and hash *)

Section Identity.
Import Label.

(** C7: two labels are equal exactly when their bucket keys agree, and the
    hash is a function of the bucket key, so equal labels have equal
    hashes. *)
Theorem eq_hash_bucket_key (tuple_hash : string * string * Z -> Z) (a b : t) :
  (__eq__ a (OfLabel b) = true <-> bucket_key a = bucket_key b)
  /\ __hash__ tuple_hash a = tuple_hash (bucket_key a)
  /\ (__eq__ a (OfLabel b) = true -> __hash__ tuple_hash a = __hash__ tuple_hash b).
Proof.
  assert (H : __eq__ a (OfLabel b) = true <-> bucket_key a = bucket_key b).
  { rewrite bucket_key_eqb. simpl. rewrite !andb_true_iff. tauto. }
  split; [exact H|]. split; [reflexivity|].
  intros E. apply H in E. unfold __hash__. unfold bucket_key in E. rewrite E.
  reflexivity.
Qed.

End Identity.

(** ** Intermediate stations and reconstruction *)

Section Intermediate.
Import SpecRoute.

Lemma candidates_loop (line : string) (lo hi : Z) (m : OrderMap) (acc : list (Z * string)) :
  foldl (fun acc '((s_cd, s_line), s_order) =>
           if (s_line =? line)%string && (lo <? s_order) && (s_order <=? hi)
           then acc ++ [(s_order, s_cd)] else acc) acc m
  = acc ++ stations_between line lo hi m.
Proof.
  revert acc. induction m as [|[[s_cd s_line] s_order] m IH]; intros acc; simpl.
  - rewrite app_nil_r. reflexivity.
  - rewrite IH. unfold stations_between. simpl.
    destruct ((s_line =? line)%string && (lo <? s_order) && (s_order <=? hi)); simpl.
    + rewrite <- app_assoc. reflexivity.
    + reflexivity.
Qed.

Lemma stations_between_empty (line : string) (lo hi : Z) (m : OrderMap) :
  empty_range line lo hi m -> stations_between line lo hi m = [].
Proof.
  unfold empty_range, stations_between. induction m as [|[[s_cd s_line] s_order] m IH];
    intros H; simpl; [reflexivity|].
  destruct ((s_line =? line)%string && (lo <? s_order) && (s_order <=? hi)) eqn:E.
  - exfalso. rewrite !andb_true_iff in E. destruct E as [[E1 E2] E3].
    apply String.eqb_eq in E1. subst s_line.
    apply (H s_cd s_order); [left; reflexivity|]. lia.
  - apply IH. intros c o Hin. apply (H c o). right. exact Hin.
Qed.

Lemma get_intermediate_unfold (from_cd to_cd line direction : string)
    (ls : LineStations) (m : OrderMap) (from_order to_order : Z) :
  dict_get m (from_cd, line) = Some from_order ->
  dict_get m (to_cd, line) = Some to_order ->
  fst (_get_intermediate_stations from_cd to_cd line direction ls m)
  = match map snd (sort_by_order (negb (from_order <? to_order))
                     (stations_between line (Z.min from_order to_order)
                        (Z.max from_order to_order) m)) with
    | [] => [to_cd]
    | r => r
    end.
Proof.
  intros Hf Ht. unfold _get_intermediate_stations. rewrite Hf, Ht.
  rewrite candidates_loop. simpl.
  destruct (map snd _); reflexivity.
Qed.

Lemma fallback_value (from_cd to_cd line direction : string)
    (ls : LineStations) (m : OrderMap) :
  fallback_condition from_cd to_cd line m ->
  fst (_get_intermediate_stations from_cd to_cd line direction ls m) = [to_cd].
Proof.
  intros [H|[H|(fo & t_o & Hf & Ht & He)]].
  - unfold _get_intermediate_stations. rewrite H. reflexivity.
  - unfold _get_intermediate_stations. rewrite H.
    destruct (dict_get m (from_cd, line)); reflexivity.
  - rewrite (get_intermediate_unfold _ _ _ _ _ _ _ _ Hf Ht).
    rewrite (stations_between_empty _ _ _ _ He).
    destruct (negb (fo <? t_o)); reflexivity.
Qed.

End Intermediate.

Section Reconstruction.
Import Label SpecRoute.

Lemma foldl_related {A S1 S2} (R : S1 -> S2 -> Prop)
    (f : S1 -> A -> S1) (g : S2 -> A -> S2) (xs : list A) :
  (forall s1 s2 x, R s1 s2 -> R (f s1 x) (g s2 x)) ->
  forall s1 s2, R s1 s2 -> R (foldl f s1 xs) (foldl g s2 xs).
Proof.
  intros Hstep. induction xs as [|x xs IH]; intros s1 s2 H; simpl; auto.
Qed.

(** C8: the line track has one entry per station of the route. *)
Theorem reconstruct_lines_length (self : t) (line_stations : option LineStations)
    (station_order_map : option OrderMap) :
  length (fst (reconstruct_lines self line_stations station_order_map))
  = length (fst (reconstruct_route self line_stations station_order_map)).
Proof.
  unfold reconstruct_lines, reconstruct_route.
  destruct line_stations as [ls|], station_order_map as [m|]; simpl;
    try (rewrite length_rev, !length_map, length_rev; reflexivity).
  apply (foldl_related (fun s1 s2 : list string * list Warning =>
                          length (fst s1) = length (fst s2))); [|reflexivity].
  intros [lines out1] [route out2] [i label] H. simpl in H.
  destruct (i =? 0)%nat; simpl.
  - rewrite !length_app, H. reflexivity.
  - destruct (negb (current_line (nth (i - 1) (rev (ancestors self)) label)
                    =? current_line label)%string).
    + destruct (negb _); simpl; [rewrite !length_app, H; reflexivity|exact H].
    + destruct (_get_intermediate_stations _ _ _ _ _ _) as [stations printed].
      simpl. rewrite !length_app, repeat_length, H. reflexivity.
Qed.

Lemma combine_app_eq {A B} (xs xs' : list A) (ys ys' : list B) :
  length xs = length ys ->
  combine (xs ++ xs') (ys ++ ys') = combine xs ys ++ combine xs' ys'.
Proof.
  revert ys. induction xs as [|x xs IH]; intros [|y ys] H; simpl in *;
    try discriminate; [reflexivity|].
  rewrite IH by lia. reflexivity.
Qed.

Lemma enumerate_snoc {A} (xs : list A) (x : A) :
  Py.enumerate (xs ++ [x]) = Py.enumerate xs ++ [(length xs, x)].
Proof.
  unfold Py.enumerate. rewrite length_app. simpl.
  rewrite seq_app. simpl. rewrite combine_app_eq by (rewrite length_seq; reflexivity).
  reflexivity.
Qed.

Lemma enumerate_bound {A} (xs : list A) (i : nat) (x : A) :
  In (i, x) (Py.enumerate xs) -> (i < length xs)%nat.
Proof.
  unfold Py.enumerate. intros H. apply in_combine_l in H. apply in_seq in H. lia.
Qed.

Lemma foldl_ext_in {A S} (f g : S -> A -> S) (xs : list A) (s : S) :
  (forall s' x, In x xs -> f s' x = g s' x) -> foldl f s xs = foldl g s xs.
Proof.
  revert s. induction xs as [|x xs IH]; intros s H; simpl; [reflexivity|].
  rewrite H by (left; reflexivity). apply IH. intros s' y Hy. apply H. right. exact Hy.
Qed.

Lemma ancestors_unfold (l : t) :
  ancestors l = l :: match parent_label l with
                     | Some parent => ancestors parent
                     | None => []
                     end.
Proof. destruct l. reflexivity. Qed.

Lemma path_last (p : t) : exists q, rev (ancestors p) = q ++ [p].
Proof. rewrite ancestors_unfold. simpl. eauto. Qed.

(** The route of a root label is its own station. *)
Lemma reconstruct_route_root (l : t) (ls : LineStations) (m : OrderMap) :
  parent_label l = None ->
  fst (reconstruct_route l (Some ls) (Some m)) = [current_station_cd l].
Proof.
  intros H. unfold reconstruct_route. rewrite ancestors_unfold, H. reflexivity.
Qed.

(** The route of a label is the route of its parent followed by the leg
    from the parent. *)
Lemma reconstruct_route_step (l p : t) (ls : LineStations) (m : OrderMap) :
  parent_label l = Some p ->
  fst (reconstruct_route l (Some ls) (Some m))
  = fst (reconstruct_route p (Some ls) (Some m)) ++ leg ls m p l.
Proof.
  intros H. unfold reconstruct_route.
  rewrite (ancestors_unfold l), H. simpl rev.
  destruct (path_last p) as [q Hq]. set (P := rev (ancestors p)) in *.
  rewrite enumerate_snoc, foldl_app. cbn [foldl].
  assert (Hlen : length P = S (length q)) by (rewrite Hq, length_app; simpl; lia).
  assert (Hp : nth (length q - 0) (P ++ [l]) l = p).
  { rewrite Nat.sub_0_r, Hq, <- app_assoc. simpl. apply nth_middle. }
  rewrite Hlen.
  match goal with
  | |- context [foldl ?F ([], []) (Py.enumerate P)] =>
      rewrite (foldl_ext_in F
        (fun '(complete_route, out) '(i, label) =>
           if (i =? 0)%nat then (complete_route ++ [current_station_cd label], out)
           else
             let prev_label := nth (i - 1) P label in
             let curr_label := label in
             if negb (current_line prev_label =? current_line curr_label)%string then
               if negb (current_station_cd curr_label
                        =? current_station_cd prev_label)%string
               then (complete_route ++ [current_station_cd curr_label], out)
               else (complete_route, out)
             else
               let '(intermediates, printed) :=
                 _get_intermediate_stations
                   (current_station_cd prev_label) (current_station_cd curr_label)
                   (current_line curr_label) (current_direction curr_label) ls m in
               (complete_route ++ intermediates, out ++ printed)))
  end.
  2:{ intros [route out] [i x] Hin. apply enumerate_bound in Hin.
      rewrite app_nth1 by lia. reflexivity. }
  destruct (foldl _ _ (Py.enumerate P)) as [route out]. unfold leg.
  simpl. rewrite Hp.
  destruct (negb (current_line p =? current_line l)%string).
  - destruct (negb _); simpl; [reflexivity|rewrite app_nil_r; reflexivity].
  - destruct (_get_intermediate_stations _ _ _ _ _ _). reflexivity.
Qed.

End Reconstruction.

(** ** The legacy label *)

Section Legacy.
Import LegacyLabel.

Lemma getattr_convenience_score (l : t) :
  getattr l "convenience_score" = Raise (AttributeError "convenience_score").
Proof. reflexivity. Qed.

Lemma getattr_congestion_score (l : t) :
  getattr l "congestion_score" = Raise (AttributeError "congestion_score").
Proof. reflexivity. Qed.

(** C9: on a legacy label [calculate_weighted_score] never returns a
    score; it stops at the read of [convenience_score], which is not an
    attribute of the class, and neither is [congestion_score]. *)
Theorem legacy_weighted_score_fails (l : t) (w : gmap string float) :
  (forall score, calculate_weighted_score l w <> Ok score)
  /\ (forall n, Py.int_to_float (transfers l) = Ok n ->
      calculate_weighted_score l w = Raise (AttributeError "convenience_score"))
  /\ getattr l "convenience_score" = Raise (AttributeError "convenience_score")
  /\ getattr l "congestion_score" = Raise (AttributeError "congestion_score").
Proof.
  assert (H : forall n, Py.int_to_float (transfers l) = Ok n ->
              calculate_weighted_score l w = Raise (AttributeError "convenience_score")).
  { intros n Hn. unfold calculate_weighted_score.
    change (getattr l "arrival_time") with (Ok (VFloat (arrival_time l))).
    change (getattr l "transfers") with (Ok (VInt (transfers l))).
    change (getattr l "max_transfer_difficulty")
      with (Ok (VFloat (max_transfer_difficulty l))).
    rewrite getattr_convenience_score. simpl.
    unfold Py.truediv_int_float. rewrite Hn. reflexivity. }
  repeat split; auto.
  intros score Hs. destruct (Py.int_to_float (transfers l)) as [n|e] eqn:E.
  - rewrite (H n eq_refl) in Hs. discriminate.
  - unfold calculate_weighted_score in Hs.
    change (getattr l "arrival_time") with (Ok (VFloat (arrival_time l))) in Hs.
    change (getattr l "transfers") with (Ok (VInt (transfers l))) in Hs.
    simpl in Hs. unfold Py.truediv_int_float in Hs. rewrite E in Hs. discriminate.
Qed.

End Legacy.

Section Sweep.
Import SpecRoute.

Lemma insert_by_order_perm (x : Z * string) (l : list (Z * string)) :
  Permutation (insert_by_order x l) (x :: l).
Proof.
  induction l as [|y l IH]; simpl; [reflexivity|].
  destruct (fst x <=? fst y); [reflexivity|].
  rewrite IH. apply perm_swap.
Qed.

Lemma stable_sort_perm (l : list (Z * string)) : Permutation (stable_sort l) l.
Proof.
  induction l as [|x l IH]; simpl; [reflexivity|].
  rewrite insert_by_order_perm, IH. reflexivity.
Qed.

Lemma insert_by_order_sorted (x : Z * string) (l : list (Z * string)) :
  ascending l -> ascending (insert_by_order x l).
Proof.
  unfold ascending. induction l as [|y l IH]; intros H; simpl.
  - repeat constructor.
  - destruct (fst x <=? fst y) eqn:E.
    + constructor; [exact H|]. constructor. apply Z.leb_le, E.
    + apply Z.leb_gt in E. inversion H as [|? ? Hs Hh]; subst.
      constructor; [apply IH, Hs|].
      destruct l as [|z l]; simpl.
      * constructor. lia.
      * destruct (fst x <=? fst z); constructor; [lia|].
        inversion Hh; subst. assumption.
Qed.

Lemma stable_sort_sorted (l : list (Z * string)) : ascending (stable_sort l).
Proof.
  induction l as [|x l IH]; simpl; [constructor|].
  apply insert_by_order_sorted, IH.
Qed.

Lemma dict_get_In (m : OrderMap) (k : string * string) (v : Z) :
  dict_get m k = Some v -> In (k, v) m.
Proof.
  induction m as [|[k' v'] m IH]; simpl; [discriminate|].
  destruct (key_eqb k' k) eqn:E.
  - intros [= ->]. left. unfold key_eqb in E. apply andb_true_iff in E.
    destruct E as [E1 E2]. apply String.eqb_eq in E1, E2.
    destruct k, k'; simpl in *; subst. reflexivity.
  - intros H. right. apply IH, H.
Qed.

Lemma In_stations_between (line : string) (lo hi : Z) (m : OrderMap)
    (s_cd : string) (s_order : Z) :
  In (s_order, s_cd) (stations_between line lo hi m)
  <-> In ((s_cd, line), s_order) m /\ lo < s_order <= hi.
Proof.
  unfold stations_between. rewrite in_map_iff. split.
  - intros ([[c l] o] & [= <- <-] & H). apply filter_In in H. destruct H as [H E].
    rewrite !andb_true_iff in E. destruct E as [[E1 E2] E3].
    apply String.eqb_eq in E1. subst l. split; [exact H|]. lia.
  - intros [H R]. exists ((s_cd, line), s_order). split; [reflexivity|].
    apply filter_In. split; [exact H|].
    rewrite String.eqb_refl. simpl. apply andb_true_iff. split.
    + apply Z.ltb_lt. lia.
    + apply Z.leb_le. lia.
Qed.

End Sweep.

Section SweepClaims.
Import Label SpecRoute.

(** C10: when the order of an endpoint is missing, or no station of the
    line lies in the order range, the function returns the one-element
    list holding the destination station, and reconstruction goes on: the
    leg adds the destination station alone to the route of the parent. *)
Theorem get_intermediate_fallback (from_cd to_cd line direction : string)
    (ls : LineStations) (m : OrderMap) :
  fallback_condition from_cd to_cd line m ->
  fst (_get_intermediate_stations from_cd to_cd line direction ls m) = [to_cd]
  /\ forall l p : t,
       parent_label l = Some p ->
       current_station_cd p = from_cd -> current_station_cd l = to_cd ->
       current_line p = line -> current_line l = line ->
       fst (reconstruct_route l (Some ls) (Some m))
       = fst (reconstruct_route p (Some ls) (Some m)) ++ [to_cd].
Proof.
  intros H. split; [apply fallback_value, H|].
  intros l p Hp Hf Ht Hlp Hll. rewrite (reconstruct_route_step l p ls m Hp).
  f_equal. unfold leg. rewrite Hlp, Hll, String.eqb_refl. simpl.
  rewrite Hf, Ht. apply fallback_value, H.
Qed.

(** On a leg that runs against the order, the sweep holds the station the
    leg starts from. *)
Lemma descending_sweep_keeps_start (from_cd to_cd line direction : string)
    (ls : LineStations) (m : OrderMap) (from_order to_order : Z) :
  dict_get m (from_cd, line) = Some from_order ->
  dict_get m (to_cd, line) = Some to_order ->
  to_order < from_order ->
  In from_cd (fst (_get_intermediate_stations from_cd to_cd line direction ls m)).
Proof.
  intros Hf Ht Hlt. rewrite (get_intermediate_unfold _ _ _ _ _ _ _ _ Hf Ht).
  assert (Hin : In from_cd
            (map snd (sort_by_order (negb (from_order <? to_order))
               (stations_between line (Z.min from_order to_order)
                  (Z.max from_order to_order) m)))).
  { apply in_map_iff. exists (from_order, from_cd). split; [reflexivity|].
    replace (from_order <? to_order) with false by (symmetry; apply Z.ltb_ge; lia).
    simpl. rewrite <- in_rev.
    apply (Permutation_in _ (Permutation_sym (stable_sort_perm _))).
    rewrite <- in_rev. apply In_stations_between.
    split; [apply dict_get_In, Hf|lia]. }
  destruct (map snd _); [destruct Hin|exact Hin].
Qed.

(** C2, at the failing input: riding from C (order 3) to A (order 1), the
    sweep is C, B -- the start is in it and the destination is not -- and
    the route repeats C and never reaches A. *)
Theorem descending_sweep_failing_input :
  fst (_get_intermediate_stations "C" "A" "L" "down"
         Examples.no_line_stations Examples.line_L)
  = ["C"; "B"]%string
  /\ fst (reconstruct_route Examples.at_A_from_C
            (Some Examples.no_line_stations) (Some Examples.line_L))
     = ["C"; "C"; "B"]%string.
Proof. split; reflexivity. Qed.

(** X1 (the ascending half of C2): on a leg that follows the order, the
    sweep is the stations of the line whose order lies in
    [(from_order, to_order]] -- the destination is in it, the start is not --
    by ascending order. *)
Theorem ascending_sweep (from_cd to_cd line direction : string)
    (ls : LineStations) (m : OrderMap) (from_order to_order : Z) :
  dict_get m (from_cd, line) = Some from_order ->
  dict_get m (to_cd, line) = Some to_order ->
  from_order < to_order ->
  let sweep := stable_sort (stations_between line from_order to_order m) in
  fst (_get_intermediate_stations from_cd to_cd line direction ls m) = map snd sweep
  /\ Permutation sweep (stations_between line from_order to_order m)
  /\ ascending sweep
  /\ (forall s_cd s_order,
        In (s_order, s_cd) sweep
        <-> In ((s_cd, line), s_order) m /\ from_order < s_order <= to_order).
Proof.
  intros Hf Ht Hlt sweep.
  assert (Hin : forall s_cd s_order,
            In (s_order, s_cd) sweep
            <-> In ((s_cd, line), s_order) m /\ from_order < s_order <= to_order).
  { intros s_cd s_order. rewrite <- In_stations_between. split.
    - apply Permutation_in, stable_sort_perm.
    - apply Permutation_in, Permutation_sym, stable_sort_perm. }
  split; [|split; [apply stable_sort_perm|split; [apply stable_sort_sorted|exact Hin]]].
  rewrite (get_intermediate_unfold _ _ _ _ _ _ _ _ Hf Ht).
  replace (from_order <? to_order) with true by (symmetry; apply Z.ltb_lt; lia).
  rewrite Z.min_l, Z.max_r by lia. simpl. fold sweep.
  assert (Hto : In (to_order, to_cd) sweep).
  { apply Hin. split; [apply dict_get_In, Ht|lia]. }
  destruct sweep; [destruct Hto|reflexivity].
Qed.

End SweepClaims.

(** ** The statements at the sample data *)

Section Witnesses.
Import Examples.

Lemma dominates_iff_pareto_witness :
  Spec.numeric fast /\ Spec.numeric slow
  /\ (Label.dominates fast slow = Ok true <-> Spec.pareto_dominates fast slow).
Proof.
  assert (Hf : Spec.numeric fast) by (repeat split; reflexivity).
  assert (Hs : Spec.numeric slow) by (repeat split; reflexivity).
  split; [exact Hf|]. split; [exact Hs|].
  exact (proj2 (dominates_iff_pareto fast slow) Hf Hs).
Defined.

Lemma get_normalized_vector_spec_witness :
  Label.get_normalized_vector fast
  = Ok (SpecVector.cost_vector 10 1 0.3 3 0.4).
Proof.
  apply (get_normalized_vector_spec fast 1 3 0.4); vm_compute; reflexivity.
Defined.

Lemma calculate_weighted_score_spec_witness :
  Label.calculate_weighted_score fast ∅
  = Ok (SpecVector.weighted_sum ∅ (SpecVector.penalties 10 1 0.3 3 0.4)).
Proof.
  apply (calculate_weighted_score_spec fast ∅ 1 3 0.4); vm_compute; reflexivity.
Defined.

Lemma get_intermediate_fallback_witness :
  fst (_get_intermediate_stations "A" "Z" "L" "up" no_line_stations line_L)
  = ["Z"%string]
  /\ fst (Label.reconstruct_route at_Z_from_A (Some no_line_stations) (Some line_L))
     = ["A"; "Z"]%string.
Proof.
  assert (H : SpecRoute.fallback_condition "A" "Z" "L" line_L)
    by (right; left; reflexivity).
  destruct (get_intermediate_fallback "A" "Z" "L" "up" no_line_stations line_L H)
    as [H1 H2].
  split; [exact H1|].
  exact (H2 at_Z_from_A at_A eq_refl eq_refl eq_refl eq_refl eq_refl).
Defined.

Lemma legacy_weighted_score_fails_witness :
  LegacyLabel.calculate_weighted_score legacy ∅
  = Raise (AttributeError "convenience_score").
Proof.
  apply (proj1 (proj2 (legacy_weighted_score_fails legacy ∅)) 1%float).
  vm_compute. reflexivity.
Defined.

Example ascending_route :
  fst (Label.reconstruct_route at_C_from_A (Some no_line_stations) (Some line_L))
  = ["A"; "B"; "C"]%string.
Proof. reflexivity. Qed.

Lemma ascending_sweep_witness :
  fst (_get_intermediate_stations "A" "C" "L" "up" no_line_stations line_L)
  = ["B"; "C"]%string.
Proof.
  apply (proj1 (ascending_sweep "A" "C" "L" "up" no_line_stations line_L 1 3
                  eq_refl eq_refl eq_refl)).
Defined.

End Witnesses.

(** * Further properties *)

Section SweepShape.
Import SpecRoute.

Lemma sort_by_order_perm (reverse : bool) (l : list (Z * string)) :
  Permutation (sort_by_order reverse l) l.
Proof.
  destruct reverse; simpl.
  - rewrite <- Permutation_rev, stable_sort_perm, <- Permutation_rev. reflexivity.
  - apply stable_sort_perm.
Qed.

Lemma stations_between_nonempty (line : string) (lo hi : Z) (m : OrderMap) :
  stations_between line lo hi m <> [] -> ~ empty_range line lo hi m.
Proof.
  intros Hne He. apply Hne, stations_between_empty, He.
Qed.

Lemma stations_between_nil (line : string) (lo hi : Z) (m : OrderMap) :
  stations_between line lo hi m = [] -> empty_range line lo hi m.
Proof.
  intros H s_cd s_order Hin R.
  assert (Hs : In (s_order, s_cd) (stations_between line lo hi m))
    by (apply In_stations_between; auto).
  rewrite H in Hs. destruct Hs.
Qed.

(** X2: the sweep is never empty, and a warning is printed exactly in the
    fallback cases, one warning at most. *)
Theorem sweep_nonempty_warning (from_cd to_cd line direction : string)
    (ls : LineStations) (m : OrderMap) :
  let r := _get_intermediate_stations from_cd to_cd line direction ls m in
  fst r <> []
  /\ (snd r <> [] <-> fallback_condition from_cd to_cd line m)
  /\ (length (snd r) <= 1)%nat.
Proof.
  unfold _get_intermediate_stations, fallback_condition.
  destruct (dict_get m (from_cd, line)) as [fo|] eqn:Hf;
    [|simpl; repeat split; auto; discriminate].
  destruct (dict_get m (to_cd, line)) as [t_o|] eqn:Ht;
    [|simpl; repeat split; auto; discriminate].
  rewrite candidates_loop. cbn [app].
  set (S := stations_between line (Z.min fo t_o) (Z.max fo t_o) m).
  pose proof (sort_by_order_perm (negb (fo <? t_o)) S) as Hp.
  destruct (sort_by_order (negb (fo <? t_o)) S) as [|x xs] eqn:Es; simpl.
  - apply Permutation_nil in Hp. repeat split; auto; try discriminate.
    intros _. right. right. exists fo, t_o. repeat split; auto.
    apply stations_between_nil. exact Hp.
  - repeat split; auto; try discriminate.
    + intros H. destruct H. reflexivity.
    + intros [H|[H|(fo' & to' & [= <-] & [= <-] & He)]]; try discriminate.
      apply stations_between_empty in He. fold S in He. rewrite He in Hp.
      symmetry in Hp. apply Permutation_nil in Hp. discriminate.
Qed.


End SweepShape.

Section Descending.
Import SpecRoute SpecRouteMore.

Lemma StronglySorted_snoc {A} (R : A -> A -> Prop) (l : list A) (a : A) :
  StronglySorted R l -> Forall (fun x => R x a) l -> StronglySorted R (l ++ [a]).
Proof.
  induction l as [|x l IH]; simpl; intros Hs Hf.
  - repeat constructor.
  - apply StronglySorted_inv in Hs. destruct Hs as [Hs Hx].
    inversion Hf; subst. constructor; [apply IH; assumption|].
    apply Forall_app. split; [assumption|]. constructor; [assumption|constructor].
Qed.

Lemma StronglySorted_rev_flip {A} (R : A -> A -> Prop) (l : list A) :
  StronglySorted R l -> StronglySorted (fun x y => R y x) (rev l).
Proof.
  induction 1 as [|a l Hs IH Hf]; simpl; [constructor|].
  apply StronglySorted_snoc; [exact IH|].
  apply List.Forall_forall. intros x Hx. apply in_rev in Hx.
  rewrite List.Forall_forall in Hf. apply Hf, Hx.
Qed.

Lemma ascending_rev_descending (l : list (Z * string)) :
  ascending l -> descending (rev l).
Proof.
  unfold ascending, descending. intros H.
  apply StronglySorted_Sorted.
  apply (StronglySorted_rev_flip (fun x y : Z * string => fst x <= fst y)).
  apply Sorted_StronglySorted; [|exact H].
  intros x y z Hxy Hyz. lia.
Qed.

(** X4: on a leg that runs against the order, the sweep is the stations of
    the line whose order lies in [(to_order, from_order]], by descending
    order; the station the leg starts from is one of them. *)
Theorem descending_sweep (from_cd to_cd line direction : string)
    (ls : LineStations) (m : OrderMap) (from_order to_order : Z) :
  dict_get m (from_cd, line) = Some from_order ->
  dict_get m (to_cd, line) = Some to_order ->
  to_order < from_order ->
  let sweep := rev (stable_sort (rev (stations_between line to_order from_order m))) in
  fst (_get_intermediate_stations from_cd to_cd line direction ls m) = map snd sweep
  /\ descending sweep
  /\ (forall s_cd s_order,
        In (s_order, s_cd) sweep
        <-> In ((s_cd, line), s_order) m /\ to_order < s_order <= from_order)
  /\ In (from_order, from_cd) sweep.
Proof.
  intros Hf Ht Hlt sweep.
  assert (Hin : forall s_cd s_order,
            In (s_order, s_cd) sweep
            <-> In ((s_cd, line), s_order) m /\ to_order < s_order <= from_order).
  { intros s_cd s_order. rewrite <- In_stations_between. unfold sweep.
    rewrite <- in_rev. split.
    - intros H. apply (Permutation_in _ (stable_sort_perm _)) in H.
      apply in_rev. exact H.
    - intros H. apply (Permutation_in _ (Permutation_sym (stable_sort_perm _))).
      apply in_rev in H. exact H. }
  assert (Hfrom : In (from_order, from_cd) sweep).
  { apply Hin. split; [apply dict_get_In, Hf|lia]. }
  split; [|split; [apply ascending_rev_descending, stable_sort_sorted|split; assumption]].
  rewrite (get_intermediate_unfold _ _ _ _ _ _ _ _ Hf Ht).
  replace (from_order <? to_order) with false by (symmetry; apply Z.ltb_ge; lia).
  rewrite Z.min_r, Z.max_l by lia. simpl. fold sweep.
  destruct sweep; [destruct Hfrom|reflexivity].
Qed.

End Descending.

Section ReconstructionSteps.
Import Label SpecRoute SpecRouteMore.

Lemma chain_induction (P : t -> Prop) :
  (forall l, parent_label l = None -> P l) ->
  (forall l p, parent_label l = Some p -> P p -> P l) ->
  forall l, P l.
Proof.
  intros Hroot Hstep l.
  remember (length (ancestors l)) as n eqn:Hn. revert l Hn.
  induction n as [|n IH]; intros l Hn; rewrite ancestors_unfold in Hn.
  - discriminate.
  - destruct (parent_label l) as [p|] eqn:Hp.
    + apply (Hstep l p Hp). apply IH. simpl in Hn. lia.
    + apply Hroot, Hp.
Qed.

Lemma reconstruct_lines_step (l p : t) (ls : LineStations) (m : OrderMap) :
  parent_label l = Some p ->
  fst (reconstruct_lines l (Some ls) (Some m))
  = fst (reconstruct_lines p (Some ls) (Some m)) ++ leg_lines ls m p l.
Proof.
  intros H. unfold reconstruct_lines.
  rewrite (ancestors_unfold l), H. simpl rev.
  destruct (path_last p) as [q Hq]. set (P := rev (ancestors p)) in *.
  rewrite enumerate_snoc, foldl_app. cbn [foldl].
  assert (Hlen : length P = S (length q)) by (rewrite Hq, length_app; simpl; lia).
  assert (Hp : nth (length q - 0) (P ++ [l]) l = p).
  { rewrite Nat.sub_0_r, Hq, <- app_assoc. simpl. apply nth_middle. }
  rewrite Hlen.
  match goal with
  | |- context [foldl ?F ([], []) (Py.enumerate P)] =>
      rewrite (foldl_ext_in F
        (fun '(complete_lines, out) '(i, label) =>
           if (i =? 0)%nat then (complete_lines ++ [current_line label], out)
           else
             let prev_label := nth (i - 1) P label in
             let curr_label := label in
             if negb (current_line prev_label =? current_line curr_label)%string then
               if negb (current_station_cd curr_label
                        =? current_station_cd prev_label)%string
               then (complete_lines ++ [current_line curr_label], out)
               else (complete_lines, out)
             else
               let '(intermediates, printed) :=
                 _get_intermediate_stations
                   (current_station_cd prev_label) (current_station_cd curr_label)
                   (current_line curr_label) (current_direction curr_label) ls m in
               (complete_lines
                  ++ repeat (current_line curr_label) (length intermediates),
                out ++ printed)))
  end.
  2:{ intros [lines out] [i x] Hin. apply enumerate_bound in Hin.
      rewrite app_nth1 by lia. reflexivity. }
  destruct (foldl _ _ (Py.enumerate P)) as [lines out]. unfold leg_lines.
  simpl. rewrite Hp.
  destruct (negb (current_line p =? current_line l)%string).
  - destruct (negb _); simpl; [reflexivity|rewrite app_nil_r; reflexivity].
  - destruct (_get_intermediate_stations _ _ _ _ _ _). reflexivity.
Qed.

(** X5: with helper data, the route of a label is the route of its parent
    followed by: the label's station when the line changes and the station
    code differs; nothing when the line changes at one station code; the
    sweep of intermediate stations when the line is the same. *)
Theorem reconstruct_route_unfold (l p : t) (ls : LineStations) (m : OrderMap) :
  parent_label l = Some p ->
  fst (reconstruct_route l (Some ls) (Some m))
  = fst (reconstruct_route p (Some ls) (Some m))
    ++ (if (current_line p =? current_line l)%string then
          fst (_get_intermediate_stations (current_station_cd p)
                 (current_station_cd l) (current_line l) (current_direction l) ls m)
        else if (current_station_cd l =? current_station_cd p)%string then []
        else [current_station_cd l]).
Proof.
  intros H. rewrite (reconstruct_route_step l p ls m H). f_equal. unfold leg.
  destruct (current_line p =? current_line l)%string; simpl; [reflexivity|].
  destruct (current_station_cd l =? current_station_cd p)%string; reflexivity.
Qed.

(** X6: with helper data, the line track of a label is the track of its
    parent followed by the label's line, once per station that the same
    step adds to the route. *)
Theorem reconstruct_lines_unfold (l p : t) (ls : LineStations) (m : OrderMap) :
  parent_label l = Some p ->
  exists added,
    fst (reconstruct_route l (Some ls) (Some m))
    = fst (reconstruct_route p (Some ls) (Some m)) ++ added
    /\ fst (reconstruct_lines l (Some ls) (Some m))
       = fst (reconstruct_lines p (Some ls) (Some m))
         ++ repeat (current_line l) (length added).
Proof.
  intros H. exists (leg ls m p l). split; [apply reconstruct_route_step, H|].
  rewrite (reconstruct_lines_step l p ls m H). f_equal. unfold leg, leg_lines.
  destruct (negb (current_line p =? current_line l)%string); [|reflexivity].
  destruct (negb _); reflexivity.
Qed.

(** X7: both reconstructions print the same warnings, in the same order. *)
Theorem reconstruct_same_warnings (self : t) (line_stations : option LineStations)
    (station_order_map : option OrderMap) :
  snd (reconstruct_lines self line_stations station_order_map)
  = snd (reconstruct_route self line_stations station_order_map).
Proof.
  unfold reconstruct_lines, reconstruct_route.
  destruct line_stations as [ls|], station_order_map as [m|]; simpl; try reflexivity.
  apply (foldl_related (fun s1 s2 : list string * list Warning => snd s1 = snd s2));
    [|reflexivity].
  intros [lines out1] [route out2] [i label] H. simpl in H. subst out2.
  destruct (i =? 0)%nat; simpl; [reflexivity|].
  destruct (negb (current_line (nth (i - 1) (rev (ancestors self)) label)
                  =? current_line label)%string).
  - destruct (negb _); reflexivity.
  - destruct (_get_intermediate_stations _ _ _ _ _ _) as [stations printed].
    reflexivity.
Qed.

Lemma reconstruct_route_plain (x : t) (line_stations : option LineStations)
    (station_order_map : option OrderMap) :
  line_stations = None \/ station_order_map = None ->
  reconstruct_route x line_stations station_order_map
  = (map current_station_cd (rev (ancestors x)), []).
Proof.
  unfold reconstruct_route.
  intros [-> | ->]; [reflexivity|destruct line_stations; reflexivity].
Qed.


Lemma last_default {A} (xs : list A) (x d d' : A) :
  List.last (x :: xs) d = List.last (x :: xs) d'.
Proof.
  revert x. induction xs as [|y xs IH]; intros x; [reflexivity|].
  change (List.last (y :: xs) d = List.last (y :: xs) d'). apply IH.
Qed.

Lemma root_parent (l p : t) : parent_label l = Some p -> root l = root p.
Proof.
  intros Hp. unfold root. rewrite (ancestors_unfold l), Hp, (ancestors_unfold p).
  simpl. apply last_default.
Qed.

Lemma root_self (l : t) : parent_label l = None -> root l = l.
Proof. intros H. unfold root. rewrite ancestors_unfold, H. reflexivity. Qed.


(** X9: a reconstructed route is never empty and begins with the station
    of the root label, with or without helper data. *)
Theorem route_starts_at_root (l : t) (line_stations : option LineStations)
    (station_order_map : option OrderMap) :
  exists rest,
    fst (reconstruct_route l line_stations station_order_map)
    = current_station_cd (root l) :: rest.
Proof.
  induction l as [l Hroot|l p Hp IH] using chain_induction.
  - rewrite (root_self l Hroot). unfold reconstruct_route.
    rewrite ancestors_unfold, Hroot.
    destruct line_stations, station_order_map; simpl; eauto.
  - rewrite (root_parent l p Hp). destruct IH as [rest IH].
    destruct line_stations as [ls|] eqn:Els, station_order_map as [m|] eqn:Em.
    1:{ rewrite (reconstruct_route_step l p ls m Hp), IH. simpl. eauto. }
    all: rewrite reconstruct_route_plain in * by auto; simpl in *;
      rewrite (ancestors_unfold l), Hp; simpl; rewrite map_app, IH; simpl; eauto.
Qed.

End ReconstructionSteps.

Section TransferList.
Import Label.

Lemma omap_length_le {A B} (f : A -> option B) (xs : list A) :
  (length (omap f xs) <= length xs)%nat.
Proof.
  induction xs as [|x xs IH]; [reflexivity|].
  change (omap f (x :: xs))
    with (match f x with Some y => y :: omap f xs | None => omap f xs end).
  destruct (f x); simpl; lia.
Qed.

(** X10: the transfer list of a label is the list of its parent followed
    by the label's own [transfer_info] when it has one; it lists, root
    first, the [transfer_info] of exactly the labels of the chain that carry
    one. *)
Theorem reconstruct_transfer_info_unfold (l : t) :
  reconstruct_transfer_info l
  = match parent_label l with
    | Some p => reconstruct_transfer_info p
    | None => []
    end ++ match transfer_info l with
           | Some info => [info]
           | None => []
           end
  /\ (forall info, In info (reconstruct_transfer_info l)
                   <-> exists x, In x (ancestors l) /\ transfer_info x = Some info)
  /\ (length (reconstruct_transfer_info l) <= length (ancestors l))%nat.
Proof.
  unfold reconstruct_transfer_info. split; [|split].
  - rewrite (ancestors_unfold l). simpl.
    destruct (parent_label l) as [p|], (transfer_info l) as [info|]; simpl;
      try reflexivity; rewrite app_nil_r; reflexivity.
  - intros info. rewrite <- in_rev, <- list_elem_of_In, list_elem_of_omap.
    split; intros (x & Hx & Hi); exists x; split; auto; apply list_elem_of_In; auto.
  - rewrite length_rev. apply omap_length_le.
Qed.

End TransferList.

Section EqualityLaws.
Import Label.

(** X11: equality of labels is an equivalence relation, and a label is
    equal to no object that is not a label. *)
Theorem eq_equivalence (a b c : t) :
  __eq__ a (OfLabel a) = true
  /\ __eq__ a (OfLabel b) = __eq__ b (OfLabel a)
  /\ (__eq__ a (OfLabel b) = true -> __eq__ b (OfLabel c) = true ->
      __eq__ a (OfLabel c) = true)
  /\ __eq__ a Other = false.
Proof.
  simpl. repeat split.
  - rewrite !String.eqb_refl, Z.eqb_refl. reflexivity.
  - rewrite (String.eqb_sym (current_station_cd a)), (String.eqb_sym (current_line a)),
      (Z.eqb_sym (transfers a)). reflexivity.
  - rewrite !andb_true_iff, !String.eqb_eq, !Z.eqb_eq.
    intros [[-> ->] ->] [[-> ->] ->]. auto.
Qed.

(** X12: dominance relates only labels that are equal under [__eq__], hence
    of equal hash: a label dominates nothing outside its own bucket. *)
Theorem dominates_within_eq (tuple_hash : string * string * Z -> Z) (a b : t) :
  dominates a b = Ok true ->
  __eq__ a (OfLabel b) = true /\ __hash__ tuple_hash a = __hash__ tuple_hash b.
Proof.
  intros H. apply dominates_true_iff in H. destruct H as [Hk _].
  pose proof Hk as Hk'. apply bucket_key_eqb in Hk'. destruct Hk' as (E1 & E2 & E3).
  split.
  - simpl. rewrite E1, E2, E3. reflexivity.
  - unfold __hash__. unfold bucket_key in Hk. rewrite Hk. reflexivity.
Qed.

End EqualityLaws.

Section FloatTransitivity.

Lemma SFcompare_trans (x y z : spec_float) (c1 c2 : comparison) :
  SFcompare x y = Some c1 -> SFcompare y z = Some c2 ->
  c1 <> Gt -> c2 <> Gt ->
  SFcompare x z = Some (match c1, c2 with Eq, Eq => Eq | _, _ => Lt end).
Proof.
  destruct x as [sx|sx| |sx mx ex], y as [sy|sy| |sy my ey], z as [sz|sz| |sz mz ez];
    simpl; try discriminate;
    repeat match goal with s : bool |- _ => destruct s end; simpl;
    change (Pos.compare_cont Eq) with Pos.compare;
    repeat match goal with
           | |- context [(?a ?= ?b)%Z] => destruct (Z.compare_spec a b)
           end;
    try lia; subst;
    repeat match goal with
           | |- context [(?a ?= ?b)%positive] => destruct (Pos.compare_spec a b)
           end;
    simpl; intros [= <-] [= <-] Hc1 Hc2; try congruence; try lia.
Qed.

Lemma leb_trans (x y z : float) :
  PrimFloat.leb x y = true -> PrimFloat.leb y z = true -> PrimFloat.leb x z = true.
Proof.
  rewrite !FloatAxioms.leb_spec. unfold SFleb.
  destruct (SFcompare (Prim2SF x) (Prim2SF y)) as [c1|] eqn:E1; [|discriminate].
  destruct (SFcompare (Prim2SF y) (Prim2SF z)) as [c2|] eqn:E2; [|destruct c1; discriminate].
  intros H1 H2.
  rewrite (SFcompare_trans _ _ _ _ _ E1 E2) by (intros ->; discriminate).
  destruct c1, c2; try reflexivity; discriminate.
Qed.

Lemma ltb_leb_trans (x y z : float) :
  PrimFloat.ltb x y = true -> PrimFloat.leb y z = true -> PrimFloat.ltb x z = true.
Proof.
  rewrite !FloatAxioms.leb_spec, !FloatAxioms.ltb_spec. unfold SFleb, SFltb.
  destruct (SFcompare (Prim2SF x) (Prim2SF y)) as [c1|] eqn:E1; [|discriminate].
  destruct (SFcompare (Prim2SF y) (Prim2SF z)) as [c2|] eqn:E2; [|destruct c1; discriminate].
  intros H1 H2.
  rewrite (SFcompare_trans _ _ _ _ _ E1 E2) by (intros ->; discriminate).
  destruct c1, c2; try reflexivity; discriminate.
Qed.

Lemma leb_ltb_trans (x y z : float) :
  PrimFloat.leb x y = true -> PrimFloat.ltb y z = true -> PrimFloat.ltb x z = true.
Proof.
  rewrite !FloatAxioms.leb_spec, !FloatAxioms.ltb_spec. unfold SFleb, SFltb.
  destruct (SFcompare (Prim2SF x) (Prim2SF y)) as [c1|] eqn:E1; [|discriminate].
  destruct (SFcompare (Prim2SF y) (Prim2SF z)) as [c2|] eqn:E2; [|destruct c1; discriminate].
  intros H1 H2.
  rewrite (SFcompare_trans _ _ _ _ _ E1 E2) by (intros ->; discriminate).
  destruct c1, c2; try reflexivity; discriminate.
Qed.

End FloatTransitivity.

Section ExactIntegers.

Lemma digits2_pos_size (p : positive) : digits2_pos p = Pos.size p.
Proof. induction p; simpl; congruence. Qed.

Lemma digits2_pos_small (m : positive) :
  Z.pos m < 2 ^ 53 -> Z.pos (digits2_pos m) <= 53.
Proof.
  intros H. rewrite digits2_pos_size.
  pose proof (Pos.size_le m) as Hs.
  assert (Hz : 2 ^ Z.pos (Pos.size m) <= 2 * Z.pos m).
  { rewrite <- Pos2Z.inj_pow. change (2 * Z.pos m) with (Z.pos (m~0)).
    apply Pos2Z.pos_le_pos, Hs. }
  destruct (Z_le_gt_dec (Z.pos (Pos.size m)) 53) as [|Hgt]; [assumption|exfalso].
  assert (2 ^ 54 <= 2 ^ Z.pos (Pos.size m)) by (apply Z.pow_le_mono_r; lia).
  change (2 ^ 54) with (2 * 2 ^ 53) in *. lia.
Qed.

Lemma digits2_pos_iter_xO (m k : positive) :
  Z.pos (digits2_pos (Pos.iter xO m k)) = Z.pos (digits2_pos m) + Z.pos k.
Proof.
  induction k as [|k IH] using Pos.peano_ind.
  - simpl. lia.
  - rewrite Pos.iter_succ. simpl digits2_pos. rewrite Pos2Z.inj_succ, IH. lia.
Qed.

(** A mantissa of 53 binary digits at most, once aligned, is kept as it
    is. *)
Lemma binary_round_small (s : bool) (m : positive) :
  Z.pos m < 2 ^ 53 ->
  exists mz ez,
    binary_round prec emax s m 0 = S754_finite s mz ez
    /\ valid_binary (S754_finite s mz ez) = true.
Proof.
  intros H. pose proof (digits2_pos_small m H) as Hd.
  unfold binary_round, shl_align.
  assert (Hf : fexp prec emax (Z.pos (digits2_pos m) + 0) = Z.pos (digits2_pos m) - 53).
  { unfold fexp, emin, prec, emax. lia. }
  rewrite Hf.
  assert (Hgen : forall mz ez,
            Z.pos (digits2_pos mz) + ez = Z.pos (digits2_pos m) ->
            ez = Z.pos (digits2_pos m) - 53 ->
            binary_round_aux prec emax s (Z.pos mz) ez loc_Exact = S754_finite s mz ez
            /\ valid_binary (S754_finite s mz ez) = true).
  { intros mz ez H1 H2.
    assert (Hfz : fexp prec emax (Z.pos (digits2_pos mz) + ez) = ez).
    { rewrite H1. unfold fexp, emin, prec, emax. lia. }
    split.
    - unfold binary_round_aux, shr_fexp. simpl Zdigits2. rewrite Hfz, Z.sub_diag.
      simpl. rewrite Hfz, Z.sub_diag. simpl.
      replace (ez <=? emax - prec) with true; [reflexivity|].
      symmetry. apply Z.leb_le. unfold emax, prec. lia.
    - simpl. unfold bounded, canonical_mantissa. rewrite Hfz, Z.eqb_refl. simpl.
      apply Z.leb_le. unfold emax, prec. lia. }
  destruct (Z.pos (digits2_pos m) - 53 - 0) as [|k|k] eqn:Ek.
  - exists m, 0. apply Hgen; lia.
  - lia.
  - exists (Pos.iter xO m k), (Z.pos (digits2_pos m) - 53).
    apply Hgen; [|reflexivity]. rewrite digits2_pos_iter_xO. lia.
Qed.

Lemma int_to_float_exact (n : Z) :
  n <> 0 -> Z.abs n < 2 ^ 53 ->
  exists d mz ez,
    Py.int_to_float n = Ok d /\ Prim2SF d = S754_finite (n <? 0) mz ez.
Proof.
  intros Hn Hb. unfold Py.int_to_float.
  assert (Hr : exists mz ez,
             binary_normalize prec emax n 0 false = S754_finite (n <? 0) mz ez
             /\ valid_binary (S754_finite (n <? 0) mz ez) = true).
  { destruct n as [|m|m]; [congruence| |]; simpl; apply binary_round_small; lia. }
  destruct Hr as (mz & ez & -> & Hv).
  exists (SF2Prim (S754_finite (n <? 0) mz ez)), mz, ez.
  pose proof (Prim2SF_SF2Prim _ Hv) as Hp.
  split; [|exact Hp].
  unfold is_infinity. rewrite FloatAxioms.eqb_spec, abs_spec, Hp. reflexivity.
Qed.

Lemma int_to_float_zero : Py.int_to_float 0 = Ok 0%float.
Proof. reflexivity. Qed.

Lemma finite_not_zero (d : float) (s : bool) (m : positive) (e : Z) :
  Prim2SF d = S754_finite s m e -> PrimFloat.eqb d 0 = false.
Proof.
  intros H. rewrite FloatAxioms.eqb_spec, H. destruct s; reflexivity.
Qed.

End ExactIntegers.

Section DominanceOrder.
Import Label Spec.

(** X13: on labels whose criteria are numbers, dominance is transitive. *)
Theorem dominates_transitive (a b c : t) :
  numeric a -> numeric b -> numeric c ->
  dominates a b = Ok true -> dominates b c = Ok true -> dominates a c = Ok true.
Proof.
  intros Na Nb Nc Hab Hbc.
  apply dominates_true_iff in Hab, Hbc. apply dominates_true_iff.
  destruct Hab as (Kab & ga & gb & ca & cb & Hga & Hgb & Hca & Hcb & A1 & A2 & A3 & A4 & SA).
  destruct Hbc as (Kbc & gb' & gc & cb' & cc & Hgb' & Hgc & Hcb' & Hcc & B1 & B2 & B3 & B4 & _).
  rewrite Hgb in Hgb'. rewrite Hcb in Hcb'. injection Hgb' as <-. injection Hcb' as <-.
  destruct (avg_numeric _ _ _ Na Hga Hca) as [Nga Nca].
  destruct (avg_numeric _ _ _ Nb Hgb Hcb) as [Ngb Ncb].
  destruct (avg_numeric _ _ _ Nc Hgc Hcc) as [Ngc Ncc].
  destruct Na as (Na1 & Na2 & _), Nb as (Nb1 & Nb2 & _), Nc as (Nc1 & Nc2 & _).
  unfold Py.gt, Py.lt in *.
  apply not_gt_leb in A1, A2, A3, A4, B1, B2, B3, B4; auto.
  split; [congruence|]. exists ga, gc, ca, cc. repeat split; auto.
  - apply leb_not_gt. eapply leb_trans; eauto.
  - apply leb_not_gt. eapply leb_trans; eauto.
  - apply leb_not_gt. eapply leb_trans; eauto.
  - apply leb_not_gt. eapply leb_trans; eauto.
  - rewrite !orb_true_iff in SA. rewrite !orb_true_iff.
    destruct SA as [[[S|S]|S]|S].
    + left. left. left. eapply ltb_leb_trans; eauto.
    + left. left. right. eapply ltb_leb_trans; eauto.
    + left. right. eapply ltb_leb_trans; eauto.
    + right. eapply leb_ltb_trans; eauto.
Qed.

End DominanceOrder.

Section Totality.
Import Label SpecMore.

Lemma int_to_float_total (n : Z) :
  Z.abs n < 2 ^ 53 -> exists d, Py.int_to_float n = Ok d.
Proof.
  intros H. destruct (Z.eq_dec n 0) as [->|Hn]; [exists 0%float; reflexivity|].
  destruct (int_to_float_exact n Hn H) as (d & _ & _ & Hd & _). eauto.
Qed.

Lemma truediv_float_int_defined (x : float) (n : Z) :
  n <> 0 -> Z.abs n < 2 ^ 53 ->
  exists d, Py.int_to_float n = Ok d /\ Py.truediv_float_int x n = Ok (x / d)%float.
Proof.
  intros Hn Hb. destruct (int_to_float_exact n Hn Hb) as (d & mz & ez & Hd & Hp).
  exists d. split; [exact Hd|]. unfold Py.truediv_float_int, Py.truediv.
  rewrite Hd. simpl. rewrite (finite_not_zero _ _ _ _ Hp). reflexivity.
Qed.

(** X14: the two means raise [ZeroDivisionError] when the depth is zero,
    and are the sums divided by the depth, without any exception, when the
    depth is a non-zero integer below [2^53] in absolute value. *)
Theorem means_error_behaviour (l : t) :
  (depth l = 0 ->
   avg_convenience l = Raise ZeroDivisionError
   /\ avg_congestion l = Raise ZeroDivisionError)
  /\ (depth l <> 0 -> Z.abs (depth l) < 2 ^ 53 ->
      exists d, Py.int_to_float (depth l) = Ok d
                /\ avg_convenience l = Ok (convenience_sum l / d)%float
                /\ avg_congestion l = Ok (congestion_sum l / d)%float).
Proof.
  unfold avg_convenience, avg_congestion. split.
  - intros ->. split; reflexivity.
  - intros Hn Hb.
    destruct (truediv_float_int_defined (convenience_sum l) _ Hn Hb) as (d & Hd & Hc).
    destruct (truediv_float_int_defined (congestion_sum l) _ Hn Hb) as (d' & Hd' & Hg).
    rewrite Hd in Hd'. injection Hd' as <-. eauto.
Qed.

(** X15: on labels whose depth is not zero and whose depth and transfer
    count are below [2^53] in absolute value, the cost vector, the weighted
    score and the dominance test raise no exception. *)
Theorem label_methods_total (a b : t) (w : gmap string float) :
  exact_ints a -> exact_ints b ->
  (exists v, get_normalized_vector a = Ok v)
  /\ (exists score, calculate_weighted_score a w = Ok score)
  /\ (exists r, dominates a b = Ok r).
Proof.
  intros (Ha1 & Ha2 & Ha3) (Hb1 & Hb2 & Hb3).
  destruct (int_to_float_total _ Ha3) as (n & Hn).
  destruct (truediv_float_int_defined (convenience_sum a) _ Ha1 Ha2) as (d & Hd & Hc).
  destruct (truediv_float_int_defined (congestion_sum a) _ Ha1 Ha2) as (d' & Hd' & Hg).
  destruct (truediv_float_int_defined (convenience_sum b) _ Hb1 Hb2) as (e & He & Hcb).
  destruct (truediv_float_int_defined (congestion_sum b) _ Hb1 Hb2) as (e' & He' & Hgb).
  split; [|split].
  - unfold get_normalized_vector, avg_convenience, avg_congestion.
    rewrite Hc, Hg, (truediv_int_float_const _ _ _ Hn) by reflexivity.
    simpl. eauto.
  - unfold calculate_weighted_score, avg_convenience, avg_congestion.
    rewrite Hc, Hg, (truediv_int_float_const _ _ _ Hn) by reflexivity.
    simpl. eauto.
  - unfold dominates, avg_convenience, avg_congestion. rewrite Hc, Hg, Hcb, Hgb.
    destruct (negb _); [eauto|]. destruct (negb _); [eauto|].
    destruct (negb _); [eauto|]. simpl.
    repeat match goal with
           | |- context [criterion ?lt ?gt ?x ?y ?acc] =>
               destruct (criterion lt gt x y acc); simpl; eauto
           end.
Qed.

(** X16: the cost vector and the weighted score fail on the same labels,
    with the same exception. *)
Theorem vector_score_same_errors (l : t) (w : gmap string float) (e : PyError) :
  get_normalized_vector l = Raise e <-> calculate_weighted_score l w = Raise e.
Proof.
  unfold get_normalized_vector, calculate_weighted_score, avg_convenience,
    avg_congestion, Py.truediv_int_float, Py.truediv_float_int.
  destruct (Py.int_to_float (transfers l)) as [n|e1]; simpl;
    [|split; intros [= ->]; reflexivity].
  destruct (Py.int_to_float (depth l)) as [d|e2]; simpl;
    [|split; intros [= ->]; reflexivity].
  unfold Py.truediv.
  destruct (PrimFloat.eqb d 0); simpl; [split; intros [= <-]; reflexivity|].
  split; discriminate.
Qed.

End Totality.

Section SimilarityOrder.
Import Label.

(** X17: epsilon-similarity is monotone in epsilon. *)
Theorem epsilon_similar_monotone (a b : t) (epsilon epsilon' : float)
    (w : gmap string float) :
  epsilon_similar a b epsilon w = Ok true ->
  Py.le epsilon epsilon' = true ->
  epsilon_similar a b epsilon' w = Ok true.
Proof.
  unfold epsilon_similar. destruct (weighted_distance a b w) as [d|]; [|discriminate].
  simpl. intros [= H] H'. f_equal. unfold Py.le in *. eapply leb_trans; eauto.
Qed.

End SimilarityOrder.

Section LegacyFacts.
Import LegacyLabel LegacyDominance SpecLegacy.

Lemma better_swap_worse (c : Criterion) : better c = worse (swap_criterion c).
Proof.
  destruct c as [s o [|]|s o [|]]; unfold better, worse; simpl; try reflexivity.
  - apply Z.gtb_ltb.
  - symmetry. apply Z.gtb_ltb.
Qed.

Lemma dominates_loop_true (cs : list Criterion) (acc : bool) :
  dominates_loop cs acc = true ->
  Forall (fun c => worse c = false) cs
  /\ (acc = true \/ Exists (fun c => better c = true) cs).
Proof.
  revert acc. induction cs as [|c cs IH]; simpl; intros acc H.
  - split; [constructor|left; exact H].
  - destruct (maximize c) eqn:M.
    + destruct (self_lt c) eqn:L; [discriminate|].
      assert (Hw : worse c = false) by (unfold worse; rewrite M; exact L).
      destruct (self_gt c) eqn:G; apply IH in H; destruct H as [H1 H2].
      * split; [constructor; assumption|]. right. constructor.
        unfold better. rewrite M. exact G.
      * split; [constructor; assumption|].
        destruct H2 as [H2|H2]; [left; exact H2|right; apply Exists_cons_tl, H2].
    + destruct (self_gt c) eqn:G; [discriminate|].
      assert (Hw : worse c = false) by (unfold worse; rewrite M; exact G).
      destruct (self_lt c) eqn:L; apply IH in H; destruct H as [H1 H2].
      * split; [constructor; assumption|]. right. constructor.
        unfold better. rewrite M. exact L.
      * split; [constructor; assumption|].
        destruct H2 as [H2|H2]; [left; exact H2|right; apply Exists_cons_tl, H2].
Qed.

(** X18: two legacy labels never dominate each other. *)
Theorem legacy_dominates_antisymmetric (a b : t) :
  ~ (dominates a b = Ok true /\ dominates b a = Ok true).
Proof.
  unfold dominates. intros [Hab Hba].
  destruct (avg_convenience a) as [ca|]; [|discriminate].
  destruct (avg_convenience b) as [cb|]; [|discriminate].
  destruct (avg_congestion a) as [ga|]; [|discriminate].
  destruct (avg_congestion b) as [gb|]; [|discriminate].
  pose (cs := [FloatCriterion (arrival_time a) (arrival_time b) false;
               IntCriterion (transfers a) (transfers b) false;
               FloatCriterion (max_transfer_difficulty a) (max_transfer_difficulty b) false;
               FloatCriterion ca cb true; FloatCriterion ga gb false]).
  assert (Hab' : dominates_loop cs false = true)
    by (injection Hab; intros E; exact E).
  assert (Hba' : dominates_loop (map swap_criterion cs) false = true)
    by (injection Hba; intros E; exact E).
  clear Hab Hba. rename Hab' into Hab, Hba' into Hba.
  apply dominates_loop_true in Hab, Hba.
  destruct Hab as [_ [Hf|Hex]]; [discriminate|]. destruct Hba as [Hall _].
  rewrite List.Exists_exists in Hex. destruct Hex as (c & Hc & Hb).
  rewrite List.Forall_forall in Hall.
  rewrite better_swap_worse in Hb.
  rewrite (Hall (swap_criterion c)) in Hb; [discriminate|].
  apply in_map, Hc.
Qed.

(** X19: the legacy means never divide by zero: an empty route counts as
    one station, and for every route of fewer than [2^53] stations the
    means are the sums divided by [max(1, len(route))]. *)
Theorem legacy_means_defined (l : t) :
  1 <= route_length l
  /\ (route l = [] ->
      avg_convenience l = Ok (convenience_sum l / 1)%float
      /\ avg_congestion l = Ok (congestion_sum l / 1)%float)
  /\ (Z.of_nat (length (route l)) < 2 ^ 53 ->
      exists d, Py.int_to_float (route_length l) = Ok d
                /\ avg_convenience l = Ok (convenience_sum l / d)%float
                /\ avg_congestion l = Ok (congestion_sum l / d)%float).
Proof.
  unfold avg_convenience, avg_congestion, route_length. split; [lia|split].
  - intros ->. split; reflexivity.
  - intros H.
    assert (Hn : Z.max 1 (Z.of_nat (length (route l))) <> 0) by lia.
    assert (Hb : Z.abs (Z.max 1 (Z.of_nat (length (route l)))) < 2 ^ 53) by lia.
    destruct (truediv_float_int_defined (convenience_sum l) _ Hn Hb) as (d & Hd & Hc).
    destruct (truediv_float_int_defined (congestion_sum l) _ Hn Hb) as (d' & Hd' & Hg).
    rewrite Hd in Hd'. injection Hd' as <-. eauto.
Qed.

Lemma ltb_implies_leb (x y : float) :
  PrimFloat.ltb x y = true -> PrimFloat.leb x y = true.
Proof.
  rewrite FloatAxioms.leb_spec, FloatAxioms.ltb_spec. unfold SFleb, SFltb.
  destruct (SFcompare (Prim2SF x) (Prim2SF y)) as [[]|]; simpl; congruence.
Qed.

Lemma leb_refl (x : float) : is_nan x = false -> PrimFloat.leb x x = true.
Proof.
  intros H. apply is_nan_spec in H. rewrite FloatAxioms.leb_spec. unfold SFleb.
  rewrite (SFcompare_refl _ H). reflexivity.
Qed.

Lemma running_max_spec (xs : list float) (m : float) :
  let r := fold_left (fun m item => if Py.gt item m then item else m) xs m in
  In r (m :: xs)
  /\ (is_nan m = false -> Forall (fun x => is_nan x = false) xs ->
      Forall (fun x => Py.le x r = true) (m :: xs)).
Proof.
  revert m. induction xs as [|x xs IH]; intros m; simpl.
  - split; [auto|]. intros Hm _. constructor; [apply leb_refl, Hm|constructor].
  - destruct (IH (if Py.gt x m then x else m)) as [Hin Hle]. split.
    + destruct (Py.gt x m); simpl in Hin; tauto.
    + intros Hm Hx. inversion Hx as [|? ? Hx1 Hx2]; subst.
      assert (Hn : is_nan (if Py.gt x m then x else m) = false)
        by (destruct (Py.gt x m); assumption).
      specialize (Hle Hn Hx2). inversion Hle as [|? ? Hc Hrest]; subst.
      unfold Py.le, Py.gt in *.
      destruct (PrimFloat.ltb m x) eqn:E.
      * constructor; [|constructor; assumption].
        eapply leb_trans; [apply ltb_implies_leb, E|exact Hc].
      * constructor; [exact Hc|]. constructor; [|assumption].
        eapply leb_trans; [|exact Hc]. apply not_gt_leb; assumption.
Qed.

(** X20: the worst transfer difficulty of a legacy label is 0.0 when the
    list of difficulties is empty and otherwise one of its entries, which
    is no smaller than any entry when the entries are numbers. *)
Theorem legacy_max_transfer_difficulty (l : t) :
  (transfer_difficulty_list l = [] -> max_transfer_difficulty l = 0%float)
  /\ (transfer_difficulty_list l <> [] ->
      In (max_transfer_difficulty l) (transfer_difficulty_list l))
  /\ (Forall (fun x => is_nan x = false) (transfer_difficulty_list l) ->
      Forall (fun x => Py.le x (max_transfer_difficulty l) = true)
             (transfer_difficulty_list l)).
Proof.
  unfold max_transfer_difficulty, Py.max_default.
  destruct (transfer_difficulty_list l) as [|x xs].
  - split; [reflexivity|]. split; [congruence|]. intros _. constructor.
  - split; [discriminate|]. split.
    + intros _. apply running_max_spec.
    + intros H. inversion H; subst. apply running_max_spec; assumption.
Qed.

End LegacyFacts.

Section Serialisation.
Import Label SpecMore SpecRouteMore.

Lemma for_each_Ok {A B} (f : A -> result B) (xs : list A) (ys : list B) :
  Main.for_each f xs = Ok ys -> Forall2 (fun x y => f x = Ok y) xs ys.
Proof.
  revert ys. induction xs as [|x xs IH]; simpl; intros ys H.
  - injection H as <-. constructor.
  - destruct (f x) as [y|e] eqn:Hx; [|discriminate]. simpl in H.
    destruct (Main.for_each f xs) as [ys'|e]; [|discriminate]. simpl in H.
    injection H as <-. constructor; [exact Hx|apply IH; reflexivity].
Qed.

Lemma for_each_total {A B} (f : A -> result B) (xs : list A) :
  (forall x, exists y, f x = Ok y) -> exists ys, Main.for_each f xs = Ok ys.
Proof.
  intros Hf. induction xs as [|x xs [ys IH]]; simpl; [eauto|].
  destruct (Hf x) as [y ->]. rewrite IH. simpl. eauto.
Qed.

Lemma score_Ok_means_Ok (l : t) (w : gmap string float) (score : float) :
  calculate_weighted_score l w = Ok score ->
  exists c g, avg_convenience l = Ok c /\ avg_congestion l = Ok g.
Proof.
  unfold calculate_weighted_score. intros H.
  destruct (Py.truediv (arrival_time l) 120) as [x1|]; [|discriminate].
  destruct (Py.truediv_int_float (transfers l) 4) as [x2|]; [|discriminate].
  destruct (avg_convenience l) as [c|]; [|discriminate].
  destruct (avg_congestion l) as [g|]; [|discriminate]. eauto.
Qed.

Lemma mean_Ok_depth (x c : float) (n : Z) :
  Py.truediv_float_int x n = Ok c -> n <> 0.
Proof. intros H ->. discriminate H. Qed.

Lemma route_head (l : t) :
  exists rest,
    fst (reconstruct_route l None None) = current_station_cd (root l) :: rest.
Proof.
  rewrite reconstruct_route_plain by auto. simpl.
  induction l as [l Hroot|l p Hp [rest IH]] using chain_induction.
  - rewrite (root_self l Hroot), ancestors_unfold, Hroot. simpl. eauto.
  - rewrite (root_parent l p Hp), (ancestors_unfold l), Hp. simpl.
    rewrite map_app, IH. simpl. eauto.
Qed.

Variable get_station_by_code : string -> result (option Main.Station).
Variable calculate_weights : string -> result (gmap string float).
Variable round : float -> Z -> float.


Lemma names_displayed (cds names : list string) :
  Forall2 (fun cd shown =>
             (station ← get_station_by_code cd;
              mret (match station with
                    | Some station => Main.name station
                    | None => cd
                    end)) = Ok shown) cds names ->
  Forall2 (Main.display_name get_station_by_code) cds names.
Proof.
  induction 1 as [|cd shown cds names Hx _ IH]; constructor; [|exact IH].
  destruct (get_station_by_code cd) as [station|] eqn:E; [|discriminate].
  simpl in Hx. injection Hx as <-. exists station. split; [exact E|reflexivity].
Qed.

Lemma entries_displayed (infos : list (string * string * string))
    (entries : list Main.TransferEntry) :
  Forall2 (fun info entry =>
             (let '(station_cd, from_line, to_line) := info in
              station ← get_station_by_code station_cd;
              mret {| Main.entry_station_cd := station_cd;
                      Main.entry_station_name :=
                        match station with
                        | Some station => Main.name station
                        | None => station_cd
                        end;
                      Main.entry_from_line := from_line;
                      Main.entry_to_line := to_line |}) = Ok entry)
          infos entries ->
  map (fun e => (Main.entry_station_cd e, Main.entry_from_line e,
                 Main.entry_to_line e)) entries = infos
  /\ Forall (fun e => Main.display_name get_station_by_code
                        (Main.entry_station_cd e) (Main.entry_station_name e))
            entries.
Proof.
  induction 1 as [|[[cd fl] tl] e infos es Hx _ [IH1 IH2]]; [split; constructor|].
  destruct (get_station_by_code cd) as [station|] eqn:E; [|discriminate].
  simpl in Hx. injection Hx as <-. simpl. split; [rewrite IH1; reflexivity|].
  constructor; [|exact IH2]. exists station. simpl. auto.
Qed.

(** X21: a dict that [label_to_dict] returns lists one station code, one
    station name and one line per label of the chain, without the stations
    passed in between; each name is the looked-up name of the code at the
    same position, or the code itself when the lookup finds no station; the
    transfer entries are the label's transfers in order; rank, transfer
    count and route length are passed through, and the label's depth is
    not zero. *)
Theorem label_to_dict_shape (l : t) (rank : Z) (disability_type : string)
    (r : Main.RouteDict) :
  Main.label_to_dict get_station_by_code calculate_weights round l rank
    disability_type = Ok r ->
  Main.route r = map current_station_cd (rev (ancestors l))
  /\ Main.lines r = rev (map current_line (ancestors l))
  /\ Forall2 (Main.display_name get_station_by_code) (Main.route r) (Main.route_names r)
  /\ map (fun e => (Main.entry_station_cd e, Main.entry_from_line e,
                    Main.entry_to_line e)) (Main.transfer_info r)
     = reconstruct_transfer_info l
  /\ Forall (fun e => Main.display_name get_station_by_code (Main.entry_station_cd e)
                                   (Main.entry_station_name e))
            (Main.transfer_info r)
  /\ Main.rank r = rank
  /\ Main.transfers r = transfers l
  /\ Main.route_length r = depth l
  /\ depth l <> 0.
Proof.
  unfold Main.label_to_dict.
  intros H.
  destruct (Main.for_each _ (fst (reconstruct_route l None None)))
    as [names|] eqn:Hn; [|discriminate].
  destruct (Main.for_each _ (reconstruct_transfer_info l))
    as [entries|] eqn:He; [|discriminate].
  simpl in H.
  destruct (calculate_weights disability_type) as [w|]; [|discriminate].
  simpl in H.
  destruct (calculate_weighted_score l w) as [score|] eqn:Hs; [|discriminate].
  simpl in H.
  destruct (avg_convenience l) as [c|] eqn:Hc; [|discriminate].
  simpl in H.
  destruct (avg_congestion l) as [g|]; [|discriminate].
  simpl in H. injection H as <-. simpl.
  apply for_each_Ok in Hn, He. apply names_displayed in Hn.
  apply entries_displayed in He. destruct He as [He1 He2].
  repeat split; try assumption. exact (mean_Ok_depth _ _ _ Hc).
Qed.

(** X22: [label_to_dict] looks up the station of the root label first; an
    exception of that lookup is the exception of [label_to_dict]. *)
Theorem label_to_dict_lookup_error (l : t) (rank : Z) (disability_type : string)
    (e : PyError) :
  get_station_by_code (current_station_cd (root l)) = Raise e ->
  Main.label_to_dict get_station_by_code calculate_weights round l rank
    disability_type = Raise e.
Proof.
  intros H. unfold Main.label_to_dict.
  destruct (route_head l) as [rest ->]. simpl. rewrite H. reflexivity.
Qed.

(** X23: when every station lookup returns and the weights are computed,
    [label_to_dict] raises exactly the exceptions of the weighted score,
    and returns a dict whenever the score is defined. *)
Theorem label_to_dict_score_error (l : t) (rank : Z) (disability_type : string)
    (w : gmap string float) :
  (forall station_cd, exists station, get_station_by_code station_cd = Ok station) ->
  calculate_weights disability_type = Ok w ->
  (forall e, Main.label_to_dict get_station_by_code calculate_weights round l rank
    disability_type = Raise e
             <-> calculate_weighted_score l w = Raise e)
  /\ (forall score, calculate_weighted_score l w = Ok score ->
        exists r, Main.label_to_dict get_station_by_code calculate_weights round l rank
    disability_type = Ok r
                  /\ Main.weighted_penalty r = round score 3).
Proof.
  intros Hget Hw. unfold Main.label_to_dict.
  destruct (for_each_total
              (fun station_cd =>
                 station ← get_station_by_code station_cd;
                 mret (match station with
                       | Some station => Main.name station
                       | None => station_cd
                       end))
              (fst (reconstruct_route l None None))) as [names ->].
  { intros cd. destruct (Hget cd) as [s ->]. simpl. eauto. }
  destruct (for_each_total
              (fun '(station_cd, from_line, to_line) =>
                 station ← get_station_by_code station_cd;
                 mret {| Main.entry_station_cd := station_cd;
                         Main.entry_station_name :=
                           match station with
                           | Some station => Main.name station
                           | None => station_cd
                           end;
                         Main.entry_from_line := from_line;
                         Main.entry_to_line := to_line |})
              (reconstruct_transfer_info l)) as [entries ->].
  { intros [[cd fl] tl]. destruct (Hget cd) as [s ->]. simpl. eauto. }
  rewrite Hw. simpl.
  destruct (calculate_weighted_score l w) as [score|e'] eqn:Hs; simpl.
  - destruct (score_Ok_means_Ok _ _ _ Hs) as (c & g & -> & ->). simpl. split.
    + intros e. split; discriminate.
    + intros ? [= <-]. eauto.
  - split; [|discriminate]. intros e. split; intros [= ->]; reflexivity.
Qed.

End Serialisation.

Section MoreWitnesses.
Import Examples MoreExamples Label.


Lemma descending_sweep_witness :
  fst (_get_intermediate_stations "C" "A" "L" "down" no_line_stations line_L)
  = ["C"; "B"]%string.
Proof.
  exact (proj1 (descending_sweep "C" "A" "L" "down" no_line_stations line_L 3 1
                  eq_refl eq_refl eq_refl)).
Defined.

Lemma reconstruct_route_unfold_witness :
  fst (reconstruct_route at_C_from_A (Some no_line_stations) (Some line_L))
  = ["A"; "B"; "C"]%string.
Proof.
  exact (reconstruct_route_unfold at_C_from_A at_A no_line_stations line_L eq_refl).
Defined.

Lemma reconstruct_lines_unfold_witness :
  exists added,
    fst (reconstruct_route at_C_from_A (Some no_line_stations) (Some line_L))
    = fst (reconstruct_route at_A (Some no_line_stations) (Some line_L)) ++ added
    /\ fst (reconstruct_lines at_C_from_A (Some no_line_stations) (Some line_L))
       = fst (reconstruct_lines at_A (Some no_line_stations) (Some line_L))
         ++ repeat "L"%string (length added).
Proof.
  exact (reconstruct_lines_unfold at_C_from_A at_A no_line_stations line_L eq_refl).
Defined.


Lemma dominates_within_eq_witness :
  dominates fast slow = Ok true
  /\ __eq__ fast (OfLabel slow) = true
  /\ __hash__ (fun _ => 0) fast = __hash__ (fun _ => 0) slow.
Proof.
  assert (H : dominates fast slow = Ok true) by (vm_compute; reflexivity).
  split; [exact H|]. exact (dominates_within_eq (fun _ => 0) fast slow H).
Defined.

Lemma dominates_transitive_witness :
  dominates fast slow = Ok true /\ dominates slow slower = Ok true
  /\ dominates fast slower = Ok true.
Proof.
  assert (H1 : dominates fast slow = Ok true) by (vm_compute; reflexivity).
  assert (H2 : dominates slow slower = Ok true) by (vm_compute; reflexivity).
  assert (Hf : Spec.numeric fast) by (repeat split; reflexivity).
  assert (Hs : Spec.numeric slow) by (repeat split; reflexivity).
  assert (Hr : Spec.numeric slower) by (repeat split; reflexivity).
  split; [exact H1|]. split; [exact H2|].
  exact (dominates_transitive fast slow slower Hf Hs Hr H1 H2).
Defined.

Lemma means_error_behaviour_witness :
  avg_convenience no_depth = Raise ZeroDivisionError
  /\ exists d, Py.int_to_float 2 = Ok d
               /\ avg_convenience fast = Ok (6 / d)%float
               /\ avg_congestion fast = Ok (0.8 / d)%float.
Proof.
  split.
  - exact (proj1 (proj1 (means_error_behaviour no_depth) eq_refl)).
  - apply (proj2 (means_error_behaviour fast)); simpl; lia.
Defined.

Lemma label_methods_total_witness :
  (exists v, get_normalized_vector fast = Ok v)
  /\ (exists score, calculate_weighted_score fast ∅ = Ok score)
  /\ (exists r, dominates fast slow = Ok r).
Proof.
  apply (label_methods_total fast slow ∅); repeat split; simpl; lia.
Defined.

Lemma epsilon_similar_monotone_witness :
  epsilon_similar fast slow 1 ∅ = Ok true
  /\ epsilon_similar fast slow 2 ∅ = Ok true.
Proof.
  assert (H : epsilon_similar fast slow 1 ∅ = Ok true) by (vm_compute; reflexivity).
  split; [exact H|].
  exact (epsilon_similar_monotone fast slow 1 2 ∅ H eq_refl).
Defined.

Lemma legacy_means_defined_witness :
  LegacyLabel.avg_convenience legacy_empty = Ok (0 / 1)%float
  /\ exists d, Py.int_to_float 2 = Ok d
               /\ LegacyLabel.avg_convenience legacy = Ok (6 / d)%float
               /\ LegacyLabel.avg_congestion legacy = Ok (0.8 / d)%float.
Proof.
  split.
  - exact (proj1 (proj1 (proj2 (legacy_means_defined legacy_empty)) eq_refl)).
  - apply (proj2 (proj2 (legacy_means_defined legacy))). simpl. lia.
Defined.

Lemma legacy_max_transfer_difficulty_witness :
  LegacyLabel.max_transfer_difficulty legacy_empty = 0%float
  /\ In (LegacyLabel.max_transfer_difficulty legacy) [0.3%float]
  /\ Forall (fun x => Py.le x (LegacyLabel.max_transfer_difficulty legacy) = true)
            [0.3%float].
Proof.
  destruct (legacy_max_transfer_difficulty legacy) as (_ & H2 & H3).
  split; [exact (proj1 (legacy_max_transfer_difficulty legacy_empty) eq_refl)|].
  split; [apply H2; discriminate|].
  apply H3. repeat constructor.
Defined.

Lemma label_to_dict_shape_witness :
  exists r,
    Main.label_to_dict stations no_weights keep fast 1 "PHY" = Ok r
    /\ Main.route r = ["A"; "A"]%string
    /\ Main.lines r = ["L"; "M"]%string
    /\ Main.rank r = 1
    /\ depth fast <> 0.
Proof.
  eexists. split; [vm_compute; reflexivity|].
  pose proof (label_to_dict_shape stations no_weights keep fast 1 "PHY" _ eq_refl)
    as (H1 & H2 & _ & _ & _ & H6 & _ & _ & H9).
  exact (conj H1 (conj H2 (conj H6 H9))).
Defined.

Lemma label_to_dict_lookup_error_witness :
  Main.label_to_dict failing_lookup no_weights keep fast 1 "PHY" = Raise TypeError.
Proof.
  exact (label_to_dict_lookup_error failing_lookup no_weights keep fast 1 "PHY"
           TypeError eq_refl).
Defined.

Lemma label_to_dict_score_error_witness :
  Main.label_to_dict stations no_weights keep no_depth 1 "PHY"
  = Raise ZeroDivisionError.
Proof.
  assert (Hget : forall station_cd,
             exists station, stations station_cd = Ok station)
    by (intros station_cd; eexists; reflexivity).
  apply (proj1 (label_to_dict_score_error stations no_weights keep no_depth 1 "PHY"
                  ∅ Hget eq_refl)).
  vm_compute. reflexivity.
Defined.

End MoreWitnesses.
